(** * The dataset-analysis workflow of [frontend/src/App.jsx]

    The React component [App] keeps four state cells ([file], [analysis],
    [loading], [error]) and four handlers that write them ([onDrop],
    [analyzeDataset], [resetAnalysis] and the inline handler of the clear
    button).  The JSX decides which controls exist and which are disabled.

    The embedding has three layers:
    - [Js]: the JavaScript values the component stores, with truthiness,
      [||], optional chaining and [parseInt];
    - the handlers as functions on the record [State], each [setX] call of
      the source being one record update, in source order;
    - the view ([upload_section], [analyze_btn_disabled], ...) and [dispatch],
      which runs a handler only when its control is rendered and enabled. *)

From Stdlib Require Import ZArith List String Ascii Bool Lia.
From Stdlib Require Import PrimFloat.
From Stdlib Require Import Decimal DecimalString DecimalPos.
Import ListNotations.
Local Open Scope string_scope.
Local Open Scope Z_scope.
Set Warnings "-register-all".

(** ** JavaScript values *)

Module Js.

(** Values reachable from [response.data] (parsed JSON), plus [undefined]. *)
Inductive val : Type :=
| Undefined
| Null
| Bool (b : bool)
| Num (x : float)
| Str (s : string)
| Arr (items : list val)
| Obj (fields : list (string * val)).

(** ToBoolean: [undefined], [null], [false], [0], [-0], [NaN] and the empty
    string are falsy, everything else (every object and array) is truthy. *)
Definition truthy (v : val) : bool :=
  match v with
  | Undefined | Null => false
  | Bool b => b
  | Num x => negb (PrimFloat.eqb x PrimFloat.zero || PrimFloat.is_nan x)
  | Str s => negb (String.eqb s "")
  | Arr _ | Obj _ => true
  end.

(** [a || b] *)
Definition or (a b : val) : val := if truthy a then a else b.

(** Own-property lookup in a parsed JSON object, whose keys are distinct. *)
Fixpoint lookup (k : string) (fields : list (string * val)) : val :=
  match fields with
  | [] => Undefined
  | (k', v) :: rest => if String.eqb k k' then v else lookup k rest
  end.

(** [v?.k]: short-circuits to [undefined] on [null] and [undefined]; a
    property that a primitive or an array does not have reads [undefined]. *)
Definition opt_get (v : val) (k : string) : val :=
  match v with
  | Obj fields => lookup k fields
  | _ => Undefined
  end.

End Js.

(** ** Data the component handles *)

(** A browser [File]: the fields the component reads ([name], [size]) and
    what the upload sends ([type], the bytes). *)
Record File : Type := mkFile {
  name : string;
  size : Z;
  type : string;
  content : list Byte.byte
}.

(** [import.meta.env]: each variable is a string or is absent. *)
Record Env : Type := mkEnv {
  VITE_API_BASE_URL : option string;
  VITE_API_TIMEOUT : option string
}.

(** An HTTP response as axios hands it over. *)
Record Response : Type := mkResponse {
  status : Z;
  data : Js.val
}.

(** The value axios rejects with.  [err_response] is [undefined] when no
    response was received (timeout: code ECONNABORTED; transport failure:
    code ERR_NETWORK) and holds the response when the server answered with
    a status outside 2xx (code ERR_BAD_REQUEST for 4xx, ERR_BAD_RESPONSE
    otherwise).  The component reads [err.response] only. *)
Record AxiosError : Type := mkAxiosError {
  err_code : string;
  err_response : option Response
}.

(** How the awaited [axios.post] ends. *)
Inductive Outcome : Type :=
| Resolved (r : Response)
| Rejected (err : AxiosError).

(** The three ways a submission fails, and the error axios builds for each. *)
Inductive Failure : Type :=
| Timeout
| Transport
| BadStatus (r : Response).

Definition axios_error (f : Failure) : AxiosError :=
  match f with
  | Timeout => mkAxiosError "ECONNABORTED" None
  | Transport => mkAxiosError "ERR_NETWORK" None
  | BadStatus r =>
      mkAxiosError
        (if (400 <=? status r) && (status r <? 500)
         then "ERR_BAD_REQUEST" else "ERR_BAD_RESPONSE")
        (Some r)
  end.

Inductive FailureKind : Type := KTimeout | KTransport | KService.

Definition kind_of (f : Failure) : FailureKind :=
  match f with
  | Timeout => KTimeout
  | Transport => KTransport
  | BadStatus _ => KService
  end.

(** The request [axios.post(url, formData, {headers, timeout})] issues:
    one multipart field ["file"] carrying the selected file. *)
Record Request : Type := mkRequest {
  req_method : string;
  req_url : string;
  req_content_type : string;
  req_fields : list (string * File);
  req_timeout : Z
}.

(** The four [useState] cells, with their initial values. *)
Record State : Type := mkState {
  file : option File;
  analysis : Js.val;
  loading : bool;
  error : Js.val
}.

Definition initial : State := mkState None Js.Null false Js.Null.

Definition setFile (v : option File) (s : State) : State :=
  mkState v (analysis s) (loading s) (error s).
Definition setAnalysis (v : Js.val) (s : State) : State :=
  mkState (file s) v (loading s) (error s).
Definition setLoading (v : bool) (s : State) : State :=
  mkState (file s) (analysis s) v (error s).
Definition setError (v : Js.val) (s : State) : State :=
  mkState (file s) (analysis s) (loading s) v.

(** The [accept] and [multiple] options passed to [useDropzone].  What
    reaches [onDrop] when several files are offered is the library's
    business; [onDrop] reads the first accepted file only. *)
Record DropzoneOptions : Type := mkDropzoneOptions {
  accept : list (string * list string);
  multiple : bool
}.

Definition dropzone_options : DropzoneOptions :=
  mkDropzoneOptions
    [ ("text/csv", [".csv"]);
      ("application/vnd.openxmlformats-officedocument.spreadsheetml.sheet",
       [".xlsx"]) ]
    false.

(** ** [parseInt] *)

Module ParseInt.

(** The strings are UTF-8.  White space and line terminators of one byte:
    TAB, LF, VT, FF, CR and the space. *)
Definition is_space (c : ascii) : bool :=
  let n := nat_of_ascii c in
  (Nat.eqb n 9 || Nat.eqb n 10 || Nat.eqb n 11 || Nat.eqb n 12
   || Nat.eqb n 13 || Nat.eqb n 32)%bool.

(** Of two bytes: U+00A0 (C2 A0). *)
Definition is_space2 (c1 c2 : ascii) : bool :=
  (Nat.eqb (nat_of_ascii c1) 194 && Nat.eqb (nat_of_ascii c2) 160)%bool.

(** Of three bytes: U+1680 (E1 9A 80), U+2000 to U+200A (E2 80 80 to 8A),
    U+2028, U+2029, U+202F (E2 80 A8, A9, AF), U+205F (E2 81 9F), U+3000
    (E3 80 80) and U+FEFF (EF BB BF). *)
Definition is_space3 (c1 c2 c3 : ascii) : bool :=
  let a := nat_of_ascii c1 in
  let b := nat_of_ascii c2 in
  let c := nat_of_ascii c3 in
  ((Nat.eqb a 225 && Nat.eqb b 154 && Nat.eqb c 128)
   || (Nat.eqb a 226 && Nat.eqb b 128
       && ((Nat.leb 128 c && Nat.leb c 138)
           || Nat.eqb c 168 || Nat.eqb c 169 || Nat.eqb c 175))
   || (Nat.eqb a 226 && Nat.eqb b 129 && Nat.eqb c 159)
   || (Nat.eqb a 227 && Nat.eqb b 128 && Nat.eqb c 128)
   || (Nat.eqb a 239 && Nat.eqb b 187 && Nat.eqb c 191))%bool.

Fixpoint skip_space (s : string) : string :=
  match s with
  | String c1 rest1 =>
      if is_space c1 then skip_space rest1
      else if Nat.ltb (nat_of_ascii c1) 128 then s
      else
        match rest1 with
        | String c2 rest2 =>
            if is_space2 c1 c2 then skip_space rest2
            else
              match rest2 with
              | String c3 rest3 =>
                  if is_space3 c1 c2 c3 then skip_space rest3 else s
              | EmptyString => s
              end
        | EmptyString => s
        end
  | EmptyString => s
  end.

(** Numbers are doubles.  Those [parseInt] returns are integers, kept in
    [Z], with [2^1024], which is no double, standing for [Infinity] (and
    its opposite for [-Infinity]). *)
Definition infinity : Z := 2 ^ 1024.

(** The double nearest to a non-negative integer, ties to even: exact
    below 2^53, 53 significant bits above, [Infinity] past the largest
    double.  This is what the language asks for up to 20 significant
    digits and what the engines do beyond. *)
Definition to_double (n : Z) : Z :=
  if n <? 2 ^ 53 then n
  else
    let e := Z.log2 n - 52 in
    let q := Z.shiftr n e in
    let r := n - Z.shiftl q e in
    let half := Z.shiftl 1 (e - 1) in
    let q' := if (half <? r) || ((r =? half) && Z.odd q) then q + 1 else q in
    let v := Z.shiftl q' e in
    if infinity <=? v then infinity else v.

(** Value of a digit in the given radix (10 or 16), if it is one. *)
Definition digit (radix : Z) (c : ascii) : option Z :=
  let n := Z.of_nat (nat_of_ascii c) in
  let d :=
    if (48 <=? n) && (n <=? 57) then Some (n - 48)
    else if (97 <=? n) && (n <=? 102) then Some (n - 87)
    else if (65 <=? n) && (n <=? 70) then Some (n - 55)
    else None in
  match d with
  | Some v => if v <? radix then Some v else None
  | None => None
  end.

(** Longest prefix of digits, read left to right; [None] when it is empty. *)
Fixpoint digits (radix : Z) (acc : option Z) (s : string) : option Z :=
  match s with
  | String c rest =>
      match digit radix c with
      | Some d =>
          digits radix
            (Some (match acc with Some a => a * radix + d | None => d end))
            rest
      | None => acc
      end
  | EmptyString => acc
  end.

Definition strip_sign (s : string) : Z * string :=
  match s with
  | String "-" rest => (-1, rest)
  | String "+" rest => (1, rest)
  | _ => (1, s)
  end.

Definition strip_radix (s : string) : Z * string :=
  match s with
  | String "0" (String "x" rest) => (16, rest)
  | String "0" (String "X" rest) => (16, rest)
  | _ => (10, s)
  end.

(** [parseInt(s)] with no radix argument: the integer the digits denote,
    as a Number, with its sign; [None] stands for [NaN]. *)
Definition of_string (s : string) : option Z :=
  let '(sign, s1) := strip_sign (skip_space s) in
  let '(radix, s2) := strip_radix s1 in
  match digits radix None s2 with
  | Some n => Some (sign * to_double n)
  | None => None
  end.

(** [parseInt(v)] for an environment variable: an absent one is
    [undefined], whose string form starts with no digit. *)
Definition of_env (v : option string) : option Z :=
  match v with
  | Some s => of_string s
  | None => of_string "undefined"
  end.

End ParseInt.

(** ** Sample data *)

Module Sample.

Definition to_lower (c : ascii) : ascii :=
  let n := nat_of_ascii c in
  if (Nat.leb 65 n && Nat.leb n 90)%bool then ascii_of_nat (n + 32) else c.

Fixpoint lower (s : string) : string :=
  match s with
  | String c rest => String (to_lower c) (lower rest)
  | EmptyString => EmptyString
  end.

Definition ends_with (suffix s : string) : bool :=
  let n := String.length s in
  let k := String.length suffix in
  (Nat.leb k n && String.eqb (substring (n - k) k s) suffix)%bool.

(** A type test for dropped files in the manner of the dropzone's: the
    file's MIME type is a key of the accept map, or its name ends with one
    of the listed extensions, letter case ignored. *)
Definition by_type_or_extension
    (acc : list (string * list string)) (f : File) : bool :=
  existsb
    (fun entry =>
       (String.eqb (lower (type f)) (lower (fst entry))
        || existsb (fun ext => ends_with (lower ext) (lower (name f)))
             (snd entry))%bool)
    acc.

Definition sales_csv : File :=
  mkFile "sales.csv" 12288 "text/csv" [].

Definition book_xlsx : File :=
  mkFile "book.xlsx" 20480
    "application/vnd.openxmlformats-officedocument.spreadsheetml.sheet" [].

Definition report_pdf : File :=
  mkFile "report.pdf" 4096 "application/pdf" [].

Definition no_env : Env := mkEnv None None.

Definition negative_timeout_env : Env := mkEnv None (Some "-5").

Definition internal_error : Response :=
  mkResponse 500 (Js.Obj [("detail", Js.Str "internal error")]).

Definition unavailable : Response :=
  mkResponse 503 (Js.Obj [("detail", Js.Str "internal error")]).

Definition bare_failure : Response :=
  mkResponse 502 (Js.Str "Bad Gateway").

Definition report : Js.val :=
  Js.Obj
    [ ("metricas",
       Js.Obj [ ("porcentaje_valores_faltantes", Js.Num 5%float);
                ("porcentaje_filas_duplicadas", Js.Num 0%float);
                ("salud_del_dataset", Js.Num 95%float) ]);
      ("observaciones", Js.Arr []);
      ("sugerencias",
       Js.Arr [ Js.Obj [ ("titulo", Js.Str "Low missing data");
                         ("mensaje", Js.Str "...");
                         ("tipo_de_reporte", Js.Str "info") ] ]) ].

(** ToNumber on the values the samples compare: [null] is 0, a boolean is
    0 or 1, the empty string is 0. *)
Definition to_number (v : Js.val) : float :=
  match v with
  | Js.Null => 0%float
  | Js.Bool true => 1%float
  | Js.Bool false => 0%float
  | Js.Num x => x
  | Js.Str "" => 0%float
  | _ => PrimFloat.nan
  end.

Definition decimal_timeout_env : Env := mkEnv None (Some "45000").


(** The body of a 422 whose [detail] lists the fields at fault. *)
Definition validation_error : Response :=
  mkResponse 422
    (Js.Obj
       [ ("detail",
          Js.Arr
            [ Js.Obj [ ("loc", Js.Arr [Js.Str "body"; Js.Str "file"]);
                       ("msg", Js.Str "field required");
                       ("type", Js.Str "value_error.missing") ] ]) ]).

End Sample.

(** ** What React draws *)

(** A value placed in JSX as a child.  React draws a string or a number
    as text, draws nothing for a boolean, [null] or [undefined], draws an
    array item by item, and raises on a plain object.  The component has
    no error boundary: when a child raises, the whole of it leaves the
    screen. *)
Fixpoint drawable (v : Js.val) : bool :=
  match v with
  | Js.Obj _ => false
  | Js.Arr items =>
      (fix all (l : list Js.val) : bool :=
         match l with
         | [] => true
         | x :: rest => drawable x && all rest
         end) items
  | _ => true
  end.

(** ** The component *)

Section Controller.

(** The build-time environment, and the dropzone's type test for one file
    against the [accept] map (the test lives in the dropzone library). *)
Variable env : Env.
Variable fileAccepted : list (string * list string) -> File -> bool.

(** [const API_BASE_URL = import.meta.env.VITE_API_BASE_URL || "http://localhost:8000"] *)
Definition API_BASE_URL : string :=
  match VITE_API_BASE_URL env with
  | Some s => if String.eqb s "" then "http://localhost:8000" else s
  | None => "http://localhost:8000"
  end.

(** [parseInt(import.meta.env.VITE_API_TIMEOUT) || 30000]: [NaN] and [0]
    are falsy. *)
Definition timeout : Z :=
  match ParseInt.of_env (VITE_API_TIMEOUT env) with
  | Some n => if n =? 0 then 30000 else n
  | None => 30000
  end.

(** *** Handlers *)

Definition onDrop (acceptedFiles : list File) (s : State) : State :=
  match nth_error acceptedFiles 0 with
  | Some selectedFile =>
      let s := setFile (Some selectedFile) s in
      let s := setError Js.Null s in
      setAnalysis Js.Null s
  | None => s
  end.

(** What the dropzone passes to [onDrop] when one file is offered. *)
Definition offered (f : File) : list File :=
  if fileAccepted (accept dropzone_options) f then [f] else [].

(** Selecting one file: the dropzone's test, then [onDrop]. *)
Definition select (f : File) (s : State) : State := onDrop (offered f) s.

(** [analyzeDataset] up to its [await]: the guard, the two state writes and
    the request. *)
Definition analyzeDataset_begin (s : State) : State * option Request :=
  match file s with
  | None => (setError (Js.Str "Por favor selecciona un archivo") s, None)
  | Some f =>
      let s := setLoading true s in
      let s := setError Js.Null s in
      (s, Some (mkRequest "POST" (API_BASE_URL ++ "/analyze_dataset/")
                  "multipart/form-data" [("file", f)] timeout))
  end.

(** [err.response?.data?.detail] *)
Definition detail (err : AxiosError) : Js.val :=
  match err_response err with
  | Some r => Js.opt_get (data r) "detail"
  | None => Js.Undefined
  end.

(** [analyzeDataset] after its [await]: the rest of [try], or [catch], and
    then [finally]. *)
Definition analyzeDataset_settle (o : Outcome) (s : State) : State :=
  let s :=
    match o with
    | Resolved response => setAnalysis (data response) s
    | Rejected err =>
        setError (Js.or (detail err) (Js.Str "Error al analizar el dataset")) s
    end in
  setLoading false s.

(** One whole call of [analyzeDataset] when nothing else happens while the
    request is awaited. *)
Definition analyzeDataset (o : Outcome) (s : State) : State :=
  match analyzeDataset_begin s with
  | (s1, Some _) => analyzeDataset_settle o s1
  | (s1, None) => s1
  end.

Definition resetAnalysis (s : State) : State :=
  let s := setFile None s in
  let s := setAnalysis Js.Null s in
  setError Js.Null s.

(** [() => setFile(null)], the clear button's handler. *)
Definition clearFile (s : State) : State := setFile None s.

(** *** View: which controls the JSX renders *)

(** [!analysis]: the upload section, with the dropzone, is rendered;
    otherwise the results section is. *)
Definition upload_section (s : State) : bool := negb (Js.truthy (analysis s)).

Definition has_file (s : State) : bool :=
  match file s with Some _ => true | None => false end.

(** [file && <div className="action-buttons">], inside the upload section:
    the analyze and the clear button. *)
Definition action_buttons (s : State) : bool := upload_section s && has_file s.

(** [disabled={loading}] *)
Definition analyze_btn_disabled (s : State) : bool := loading s.

(** [error && <div className="error">...{error}</div>], inside the upload
    section: the message is on screen when [error] is truthy and React
    can draw it as the child it is. *)
Definition error_shown (s : State) : bool :=
  upload_section s && Js.truthy (error s) && drawable (error s).

(** The results section with its new-analysis button. *)
Definition results_section (s : State) : bool := Js.truthy (analysis s).

(** *** Events *)

Inductive Event : Type :=
| Drop (acceptedFiles : list File)
| ClickAnalyze
| ClickClear
| ClickReset
| Settle (o : Outcome).

(** The component with its network side: requests awaiting their outcome
    and every request issued so far. *)
Record App : Type := mkApp {
  st : State;
  pending : list Request;
  issued : list Request
}.

Definition start : App := mkApp initial [] [].

Definition opt_list {A : Type} (o : option A) : list A :=
  match o with Some x => [x] | None => [] end.

(** An event reaches its handler only through a control that is rendered
    and not disabled; [Settle] resumes the oldest awaiting call. *)
Definition dispatch (a : App) (e : Event) : App :=
  match e with
  | Drop acceptedFiles =>
      if upload_section (st a)
      then mkApp (onDrop acceptedFiles (st a)) (pending a) (issued a)
      else a
  | ClickAnalyze =>
      if action_buttons (st a) && negb (analyze_btn_disabled (st a))
      then let '(s, r) := analyzeDataset_begin (st a) in
           mkApp s (pending a ++ opt_list r) (issued a ++ opt_list r)
      else a
  | ClickClear =>
      if action_buttons (st a)
      then mkApp (clearFile (st a)) (pending a) (issued a)
      else a
  | ClickReset =>
      if results_section (st a)
      then mkApp (resetAnalysis (st a)) (pending a) (issued a)
      else a
  | Settle o =>
      match pending a with
      | _ :: rest => mkApp (analyzeDataset_settle o (st a)) rest (issued a)
      | [] => a
      end
  end.

Definition run (a : App) (events : list Event) : App :=
  fold_left dispatch events a.

(** *** The workflow states of the specification, read off the cells *)

(** No candidate, no result on display, no error on display, not loading. *)
Definition Idle (s : State) : Prop :=
  file s = None /\ Js.truthy (analysis s) = false
  /\ Js.truthy (error s) = false /\ loading s = false.

Definition FileSelected (c : File) (s : State) : Prop :=
  file s = Some c /\ upload_section s = true /\ loading s = false.

Definition Submitting (c : File) (s : State) : Prop :=
  file s = Some c /\ upload_section s = true /\ loading s = true.

Definition Succeeded (s : State) : Prop :=
  results_section s = true /\ loading s = false.

Definition Failed (c : File) (s : State) : Prop :=
  FileSelected c s /\ Js.truthy (error s) = true.

(** At most one control path is awaiting: [loading] counts the requests in
    flight. *)
Definition in_flight_ok (a : App) : Prop :=
  List.length (pending a) = if loading (st a) then 1%nat else 0%nat.


(** *** What a run of events keeps true *)

(** Beyond the count of requests in flight: while [loading] is set the
    upload section is on display and no error is stored, and a result on
    display never comes with a stored error. *)
Definition coherent (a : App) : Prop :=
  in_flight_ok a
  /\ (loading (st a) = true ->
      upload_section (st a) = true /\ error (st a) = Js.Null)
  /\ (results_section (st a) = true -> error (st a) = Js.Null).

(** The files that reached [onDrop] as [acceptedFiles[0]] during a run. *)
Definition selections (events : list Event) : list File :=
  flat_map
    (fun e => match e with Drop (f :: _) => [f] | _ => [] end)
    events.

Definition is_click_analyze (e : Event) : bool :=
  match e with ClickAnalyze => true | _ => false end.

(** The number of clicks on the analyze button in a run. *)
Definition analyze_clicks (events : list Event) : nat :=
  List.length (filter is_click_analyze events).

(** The files carried by the requests issued so far. *)
Definition sent_files (a : App) : list File :=
  flat_map (fun r => map snd (req_fields r)) (issued a).

(** The shape every request of the component has. *)
Definition well_formed_request (r : Request) : Prop :=
  req_method r = "POST"
  /\ req_url r = API_BASE_URL ++ "/analyze_dataset/"
  /\ req_content_type r = "multipart/form-data"
  /\ req_timeout r = timeout
  /\ exists f, req_fields r = [("file", f)].

(** *** What the upload section prints for the held file *)

(** [(file.size / 1024).toFixed(1)] in tenths of a KB.  A file size is an
    integer below 2^53, so the quotient by 1024 is exact as a double, and
    [toFixed(1)] takes the integer [n] nearest to ten times it, the larger
    one on a tie: [n = floor (10 * size / 1024 + 1/2)]. *)
Definition size_tenths (f : File) : Z := (5 * size f + 256) / 512.

Definition decimal (n : Z) : string :=
  NilZero.string_of_uint (N.to_uint (Z.to_N n)).

(** The digits of [n] with the point before the last one. *)
Definition size_label (f : File) : string :=
  decimal (size_tenths f / 10) ++ "." ++ decimal (size_tenths f mod 10).

(** *** Evaluating the results section *)

(** ToNumber of the language, which [>] applies to an operand that is not
    a number already. *)
Variable toNumber : Js.val -> float.

(** Evaluating a JSX expression yields a value or raises [TypeError]. *)
Inductive Render (A : Type) : Type :=
| Done (a : A)
| TypeError.

Arguments Done {A} a.
Arguments TypeError {A}.

Definition bind {A B : Type} (m : Render A) (k : A -> Render B) : Render B :=
  match m with
  | Done a => k a
  | TypeError => TypeError
  end.

Notation "x <- m ;; k" := (bind m (fun x => k))
  (at level 61, m at next level, right associativity).

(** The data properties the results section reads. *)
Inductive Field : Type :=
| metricas
| porcentaje_valores_faltantes
| porcentaje_filas_duplicadas
| salud_del_dataset
| observaciones
| sugerencias
| titulo
| mensaje
| tipo_de_reporte.

Definition field_name (f : Field) : string :=
  match f with
  | metricas => "metricas"
  | porcentaje_valores_faltantes => "porcentaje_valores_faltantes"
  | porcentaje_filas_duplicadas => "porcentaje_filas_duplicadas"
  | salud_del_dataset => "salud_del_dataset"
  | observaciones => "observaciones"
  | sugerencias => "sugerencias"
  | titulo => "titulo"
  | mensaje => "mensaje"
  | tipo_de_reporte => "tipo_de_reporte"
  end.

(** [v.f]: reading a property of [undefined] or [null] raises; an object
    gives its own property, and no other value has one of these names. *)
Definition prop_get (v : Js.val) (f : Field) : Render Js.val :=
  match v with
  | Js.Undefined | Js.Null => TypeError
  | Js.Obj fields => Done (Js.lookup (field_name f) fields)
  | _ => Done Js.Undefined
  end.

(** [x > 0] *)
Definition gt_zero (x : Js.val) : bool :=
  match x with
  | Js.Undefined => false
  | Js.Num n => PrimFloat.ltb PrimFloat.zero n
  | _ => PrimFloat.ltb PrimFloat.zero (toNumber x)
  end.

(** [v.length > 0]: an array has as many as it has items, a string is
    longer than 0 unless it is empty, a number or boolean has no [length],
    an object may have one as a property. *)
Definition length_gt_zero (v : Js.val) : Render bool :=
  match v with
  | Js.Undefined | Js.Null => TypeError
  | Js.Arr items => Done (negb (Nat.eqb (List.length items) 0))
  | Js.Str s => Done (negb (String.eqb s ""))
  | Js.Num _ | Js.Bool _ => Done false
  | Js.Obj fields => Done (gt_zero (Js.lookup "length" fields))
  end.

(** One [analysis-card]: its [key] and the three values it shows. *)
Record Card : Type := mkCard {
  card_key : nat;
  card_titulo : Js.val;
  card_mensaje : Js.val;
  card_tipo : Js.val
}.

(** The callback of [map]: [(obs, index) => <div key={index}> ...]. *)
Definition card (item : Js.val) (index : nat) : Render Card :=
  t <- prop_get item titulo ;;
  m <- prop_get item mensaje ;;
  r <- prop_get item tipo_de_reporte ;;
  Done (mkCard index t m r).

Fixpoint map_cards (items : list Js.val) (index : nat) : Render (list Card) :=
  match items with
  | [] => Done []
  | item :: rest =>
      c <- card item index ;;
      cs <- map_cards rest (S index) ;;
      Done (c :: cs)
  end.

(** [v.map(callback)]: only an array has a callable [map]. *)
Definition call_map (v : Js.val) : Render (list Card) :=
  match v with
  | Js.Arr items => map_cards items 0
  | _ => TypeError
  end.

Inductive Findings : Type :=
| Cards (cards : list Card)
| NoData (message : string).

(** [v.length > 0 ? <div className="cards-grid">{v.map(...)}</div>
                  : <p className="no-data">message</p>] *)
Definition findings (v : Js.val) (message : string) : Render Findings :=
  positive <- length_gt_zero v ;;
  if positive
  then cs <- call_map v ;; Done (Cards cs)
  else Done (NoData message).

Record ResultsView : Type := mkResultsView {
  valores_faltantes : Js.val;
  filas_duplicadas : Js.val;
  salud : Js.val;
  observations : Findings;
  suggestions : Findings
}.

(** The [results-section] for a truthy [analysis]. *)
Definition results_view (a : Js.val) : Render ResultsView :=
  m1 <- prop_get a metricas ;;
  v1 <- prop_get m1 porcentaje_valores_faltantes ;;
  m2 <- prop_get a metricas ;;
  v2 <- prop_get m2 porcentaje_filas_duplicadas ;;
  m3 <- prop_get a metricas ;;
  v3 <- prop_get m3 salud_del_dataset ;;
  o <- prop_get a observaciones ;;
  obs <- findings o "No se encontraron observaciones relevantes." ;;
  g <- prop_get a sugerencias ;;
  sug <- findings g "No hay sugerencias disponibles." ;;
  Done (mkResultsView v1 v2 v3 obs sug).

(** [undefined] or [null] *)
Definition nullish (v : Js.val) : bool :=
  match v with
  | Js.Undefined | Js.Null => true
  | _ => false
  end.

(** A value the findings list cannot be drawn from. *)
Definition bad_list (v : Js.val) : bool :=
  match v with
  | Js.Undefined | Js.Null => true
  | Js.Arr items => existsb nullish items
  | Js.Str s => negb (String.eqb s "")
  | Js.Num _ | Js.Bool _ => false
  | Js.Obj fields => gt_zero (Js.lookup "length" fields)
  end.

(** A response body the results section cannot be drawn from. *)
Definition malformed (a : Js.val) : bool :=
  nullish a
  || nullish (Js.opt_get a "metricas")
  || bad_list (Js.opt_get a "observaciones")
  || bad_list (Js.opt_get a "sugerencias").

(** *** Whether the page is on screen *)

Definition card_draws (c : Card) : bool :=
  drawable (card_titulo c) && drawable (card_mensaje c)
  && drawable (card_tipo c).

Definition findings_draw (f : Findings) : bool :=
  match f with
  | Cards cs => forallb card_draws cs
  | NoData _ => true
  end.

(** Every value the results section places as a child can be drawn. *)
Definition results_draw (v : ResultsView) : bool :=
  drawable (valores_faltantes v) && drawable (filas_duplicadas v)
  && drawable (salud v)
  && findings_draw (observations v) && findings_draw (suggestions v).

(** The page is on screen: in the upload section the only child taken
    from data is [{error}], under [error &&]; the results section must
    evaluate and every value it shows must be drawable. *)
Definition page_draws (s : State) : bool :=
  if upload_section s
  then negb (Js.truthy (error s)) || drawable (error s)
  else
    match results_view (analysis s) with
    | Done v => results_draw v
    | TypeError => false
    end.

(** What an outcome stores can be drawn: after a rejection the [detail]
    (the fixed message otherwise), after a response its body when that is
    truthy. *)
Definition outcome_draws (o : Outcome) : bool :=
  match o with
  | Rejected err => drawable (detail err)
  | Resolved r =>
      if Js.truthy (data r)
      then
        match results_view (data r) with
        | Done v => results_draw v
        | TypeError => false
        end
      else true
  end.

Definition outcomes_draw (events : list Event) : bool :=
  forallb
    (fun e => match e with Settle o => outcome_draws o | _ => true end)
    events.

(** Nothing is loading and the page is on screen, so the dropzone or the
    new-analysis button is there and the analyze button, where it is, is
    not disabled. *)
Definition interactive (s : State) : Prop :=
  loading s = false /\ page_draws s = true.

(** ** Properties *)

(** *** Frame facts about the handlers *)

Lemma settle_loading (o : Outcome) (s : State) :
  loading (analyzeDataset_settle o s) = false.
Proof. destruct o; reflexivity. Qed.

Lemma settle_file (o : Outcome) (s : State) :
  file (analyzeDataset_settle o s) = file s.
Proof. destruct o; reflexivity. Qed.

(** The fallback of [||] in [catch] is a non-empty string, so the stored
    error is always truthy. *)
Lemma catch_message_truthy (v : Js.val) :
  Js.truthy (Js.or v (Js.Str "Error al analizar el dataset")) = true.
Proof.
  unfold Js.or. destruct (Js.truthy v) eqn:Hv; [exact Hv | reflexivity].
Qed.

Lemma begin_with_file (s : State) (c : File) :
  file s = Some c ->
  analyzeDataset_begin s =
    (setError Js.Null (setLoading true s),
     Some (mkRequest "POST" (API_BASE_URL ++ "/analyze_dataset/")
             "multipart/form-data" [("file", c)] timeout)).
Proof. intros Hf. unfold analyzeDataset_begin. rewrite Hf. reflexivity. Qed.

Lemma begin_without_file (s : State) :
  file s = None ->
  analyzeDataset_begin s =
    (setError (Js.Str "Por favor selecciona un archivo") s, None).
Proof. intros Hf. unfold analyzeDataset_begin. rewrite Hf. reflexivity. Qed.

Lemma has_file_some (s : State) :
  has_file s = true -> exists c, file s = Some c.
Proof.
  unfold has_file. destruct (file s) as [c|]; [eauto | discriminate].
Qed.

(** [analyzeDataset] itself never looks at [loading]: called on a state that
    holds a file it issues a request whatever the flag says.  The guard
    against a second submission is the button's [disabled={loading}]. *)
Remark begin_ignores_loading (s : State) (c : File) :
  file s = Some c -> snd (analyzeDataset_begin s) <> None.
Proof. intros Hf. rewrite (begin_with_file s c Hf). discriminate. Qed.

(** *** The in-flight invariant *)

Lemma start_in_flight_ok : in_flight_ok start.
Proof. reflexivity. Qed.

Lemma dispatch_in_flight_ok (a : App) (e : Event) :
  in_flight_ok a -> in_flight_ok (dispatch a e).
Proof.
  unfold in_flight_ok. intros Hinv.
  destruct e as [fs | | | | o]; cbn [dispatch].
  - destruct (upload_section (st a)); [|exact Hinv].
    cbn [st pending]. unfold onDrop.
    destruct (nth_error fs 0); exact Hinv.
  - destruct (action_buttons (st a) && negb (analyze_btn_disabled (st a)))
      eqn:Hgo; [|exact Hinv].
    apply andb_true_iff in Hgo. destruct Hgo as [Hbtn Hen].
    unfold analyze_btn_disabled in Hen. apply negb_true_iff in Hen.
    rewrite Hen in Hinv.
    apply andb_true_iff in Hbtn. destruct Hbtn as [_ Hfile].
    destruct (has_file_some _ Hfile) as [c Hc].
    rewrite (begin_with_file _ c Hc). cbn [st pending opt_list].
    rewrite length_app, Hinv. reflexivity.
  - destruct (action_buttons (st a)); exact Hinv.
  - destruct (results_section (st a)); exact Hinv.
  - destruct (pending a) as [|q rest] eqn:Hp; [rewrite Hp; exact Hinv|].
    cbn [st pending]. rewrite settle_loading.
    cbn [List.length] in Hinv. destruct (loading (st a)); [|discriminate].
    injection Hinv as Hrest. exact Hrest.
Qed.

Lemma run_in_flight_ok (events : list Event) :
  forall a, in_flight_ok a -> in_flight_ok (run a events).
Proof.
  unfold run. induction events as [|e events IH]; intros a Hinv; cbn.
  - exact Hinv.
  - apply IH. apply dispatch_in_flight_ok. exact Hinv.
Qed.

Lemma in_flight_at_most_one (a : App) :
  in_flight_ok a -> (List.length (pending a) <= 1)%nat.
Proof.
  unfold in_flight_ok. intros Hinv. rewrite Hinv.
  destruct (loading (st a)); lia.
Qed.

(** From the initial state no sequence of events ever has two requests in
    flight, and a request is in flight exactly while [loading] is set. *)
Lemma reachable_in_flight (events : list Event) :
  in_flight_ok (run start events).
Proof. apply run_in_flight_ok, start_in_flight_ok. Qed.

Corollary at_most_one_in_flight (events : list Event) :
  (List.length (pending (run start events)) <= 1)%nat.
Proof. apply in_flight_at_most_one, reachable_in_flight. Qed.

Lemma click_analyze_while_loading (a : App) :
  loading (st a) = true -> dispatch a ClickAnalyze = a.
Proof.
  intros Hl. cbn [dispatch]. unfold analyze_btn_disabled. rewrite Hl.
  rewrite andb_false_r. reflexivity.
Qed.

(** *** Claims *)

(** C1.  In every state with a submission in flight ([loading] set, one
    request pending) a click on the analyze button changes nothing: state,
    pending requests and the log of issued requests stay as they are; and
    whatever events follow, at most one request is ever in flight. *)
Theorem analyze_while_submitting_is_noop (a : App) (events : list Event) :
  loading (st a) = true ->
  in_flight_ok a ->
  dispatch a ClickAnalyze = a
  /\ issued (dispatch a ClickAnalyze) = issued a
  /\ (List.length (pending (run a (ClickAnalyze :: events))) <= 1)%nat.
Proof.
  intros Hl Hinv.
  pose proof (click_analyze_while_loading a Hl) as Hnoop.
  split; [exact Hnoop|]. split; [rewrite Hnoop; reflexivity|].
  apply in_flight_at_most_one, run_in_flight_ok. exact Hinv.
Qed.

(** C8.  Called while no file is held, [analyzeDataset] issues no request
    and leaves [file], [analysis] and [loading] as they were; it only
    stores the message asking for a file. *)
Theorem analyze_without_file (o : Outcome) (s : State) :
  file s = None ->
  let s' := analyzeDataset o s in
  snd (analyzeDataset_begin s) = None
  /\ file s' = file s
  /\ analysis s' = analysis s
  /\ loading s' = loading s
  /\ error s' = Js.Str "Por favor selecciona un archivo".
Proof.
  intros Hf s'. subst s'. unfold analyzeDataset.
  rewrite (begin_without_file s Hf). cbn. repeat split; reflexivity.
Qed.

(** C2 (as amended).  After a failed submission the only trace of the
    failure is the message in [error]: the body's [detail] when the server
    answered and [detail] is truthy, the fixed message otherwise.  A
    timeout and a transport failure both have no response and leave the
    same state; the status code is not stored. *)
Theorem failure_message (f : Failure) (s : State) :
  let s' := analyzeDataset_settle (Rejected (axios_error f)) s in
  s' = setLoading false (setError (error s') s)
  /\ error s' =
       match f with
       | Timeout | Transport => Js.Str "Error al analizar el dataset"
       | BadStatus r =>
           if Js.truthy (Js.opt_get (data r) "detail")
           then Js.opt_get (data r) "detail"
           else Js.Str "Error al analizar el dataset"
       end.
Proof.
  destruct f as [| | r]; cbn; split; reflexivity.
Qed.

(** C3 (as amended).  While a file is held the clear control depends on
    the view.  In the results section it is not rendered: a click changes
    nothing, and the new-analysis button is what empties the component.
    In the upload section [clearFile] drops the file and leaves [analysis]
    and [loading] alone; with no error attached and nothing in flight the
    state reached is [Idle]. *)
Theorem clear_by_view (a : App) (c : File) :
  file (st a) = Some c ->
  if results_section (st a)
  then dispatch a ClickClear = a
       /\ (loading (st a) = false -> Idle (st (dispatch a ClickReset)))
  else let a' := dispatch a ClickClear in
       file (st a') = None
       /\ analysis (st a') = analysis (st a)
       /\ loading (st a') = loading (st a)
       /\ pending a' = pending a
       /\ issued a' = issued a
       /\ (Js.truthy (error (st a)) = false -> loading (st a) = false ->
           Idle (st a')).
Proof.
  intros Hf. cbn [dispatch].
  unfold action_buttons, upload_section, results_section, has_file.
  rewrite Hf. destruct (Js.truthy (analysis (st a))) eqn:Ha; cbn.
  - split; [reflexivity|]. intros Hl. unfold Idle. cbn. auto.
  - repeat split; try reflexivity; cbn; assumption.
Qed.

(** [catch] and [finally] on a state that holds [c] in the upload section:
    [c] stays, the error is attached, [loading] is cleared. *)
Lemma settle_rejected_failed (c : File) (err : AxiosError) (s : State) :
  file s = Some c ->
  upload_section s = true ->
  Failed c (analyzeDataset_settle (Rejected err) s).
Proof.
  intros Hf Hup. repeat split.
  - rewrite settle_file. exact Hf.
  - exact Hup.
  - cbn. apply catch_message_truthy.
Qed.

(** The same for one whole call started in [FileSelected]. *)
Lemma failed_run (c : File) (err : AxiosError) (s : State) :
  FileSelected c s -> Failed c (analyzeDataset (Rejected err) s).
Proof.
  intros (Hf & Hup & _). unfold analyzeDataset.
  rewrite (begin_with_file s c Hf).
  apply settle_rejected_failed; assumption.
Qed.

Lemma settle_clears_loading (a : App) (o : Outcome) :
  in_flight_ok a ->
  loading (st (dispatch a (Settle o))) = false
  /\ pending (dispatch a (Settle o)) = [].
Proof.
  unfold in_flight_ok. intros Hinv. cbn [dispatch].
  destruct (pending a) as [|q rest] eqn:Hp.
  - rewrite Hp. cbn [List.length] in Hinv.
    destruct (loading (st a)); [discriminate | auto].
  - cbn [st pending]. rewrite settle_loading. split; [reflexivity|].
    cbn [List.length] in Hinv. destruct (loading (st a)); [|discriminate].
    destruct rest; [reflexivity | discriminate].
Qed.

(** C6.  Selecting a file the dropzone accepts stores that very file, so
    its [name] and [size] are the input's, in place of whatever was held,
    and resets [analysis] and [error] to [null]. *)
Theorem select_valid_file (f : File) (s : State) :
  fileAccepted (accept dropzone_options) f = true ->
  let s' := select f s in
  file s' = Some f
  /\ option_map name (file s') = Some (name f)
  /\ option_map size (file s') = Some (size f)
  /\ analysis s' = Js.Null
  /\ error s' = Js.Null
  /\ loading s' = loading s.
Proof.
  intros Hacc s'. subst s'. unfold select, offered. rewrite Hacc.
  cbn. repeat split; reflexivity.
Qed.

(** C7 (as amended).  A file the dropzone does not accept never reaches
    the component: nothing is stored and nothing is reported, the state
    (file, analysis, error, loading) is the prior one, and no request is
    issued. *)
Theorem select_rejected_file (f : File) (a : App) :
  fileAccepted (accept dropzone_options) f = false ->
  select f (st a) = st a
  /\ dispatch a (Drop (offered f)) = a
  /\ error_shown (select f (st a)) = error_shown (st a)
  /\ issued (dispatch a (Drop (offered f))) = issued a.
Proof.
  intros Hrej.
  assert (Hsel : select f (st a) = st a)
    by (unfold select, offered; rewrite Hrej; reflexivity).
  assert (Hdrop : dispatch a (Drop (offered f)) = a).
  { cbn [dispatch]. unfold offered. rewrite Hrej. cbn.
    destruct (upload_section (st a)); [destruct a|]; reflexivity. }
  rewrite Hsel, Hdrop. repeat split; reflexivity.
Qed.

(** C9 (as amended).  A click that starts a submission issues exactly one
    request: a POST to [API_BASE_URL ++ "/analyze_dataset/"] with the
    configured timeout.  The base URL is the default when the variable is
    absent.  The timeout is 30000 when the variable is absent or
    [parseInt] of it is [NaN] or [0], and the parsed integer when that is
    positive. *)
Theorem submission_uses_configuration (a : App) :
  action_buttons (st a) = true ->
  analyze_btn_disabled (st a) = false ->
  (exists r,
     issued (dispatch a ClickAnalyze) = (issued a ++ [r])%list
     /\ pending (dispatch a ClickAnalyze) = (pending a ++ [r])%list
     /\ req_method r = "POST"
     /\ req_url r = API_BASE_URL ++ "/analyze_dataset/"
     /\ req_timeout r = timeout)
  /\ (VITE_API_BASE_URL env = None -> API_BASE_URL = "http://localhost:8000")
  /\ (VITE_API_TIMEOUT env = None -> timeout = 30000)
  /\ (ParseInt.of_env (VITE_API_TIMEOUT env) = None -> timeout = 30000)
  /\ (ParseInt.of_env (VITE_API_TIMEOUT env) = Some 0 -> timeout = 30000)
  /\ (forall n, 0 < n ->
        ParseInt.of_env (VITE_API_TIMEOUT env) = Some n -> timeout = n).
Proof.
  intros Hbtn Hen. split.
  - cbn [dispatch]. rewrite Hbtn, Hen. cbn [andb negb].
    apply andb_true_iff in Hbtn. destruct Hbtn as [_ Hfile].
    destruct (has_file_some _ Hfile) as [c Hc].
    rewrite (begin_with_file _ c Hc). cbn [opt_list issued pending].
    eexists. repeat split; reflexivity.
  - unfold API_BASE_URL, timeout. repeat split.
    + intros ->. reflexivity.
    + intros ->. reflexivity.
    + intros ->. reflexivity.
    + intros ->. reflexivity.
    + intros n Hn ->. destruct (Z.eqb_spec n 0); [lia | reflexivity].
Qed.

(** C10.  When the submission for a held file [c] succeeds, [c] is still
    held and the response body is stored next to it.  If that body is
    truthy the results section is on display, and there no event other
    than a click on the new-analysis (or a clear) control takes [c] away;
    the new-analysis click does. *)
Theorem success_keeps_candidate (a : App) (c : File) (r : Response) :
  file (st a) = Some c ->
  loading (st a) = true ->
  in_flight_ok a ->
  let a' := dispatch a (Settle (Resolved r)) in
  file (st a') = Some c
  /\ analysis (st a') = data r
  /\ loading (st a') = false
  /\ (Js.truthy (data r) = true ->
      Succeeded (st a')
      /\ (forall e, file (st (dispatch a' e)) <> Some c ->
                    e = ClickReset \/ e = ClickClear)
      /\ file (st (dispatch a' ClickReset)) = None).
Proof.
  intros Hf Hl Hinv a'.
  assert (Ha' : exists rest,
             a' = mkApp (analyzeDataset_settle (Resolved r) (st a)) rest
                    (issued a)).
  { subst a'. cbn [dispatch]. unfold in_flight_ok in Hinv.
    rewrite Hl in Hinv. destruct (pending a) as [|q rest]; [discriminate|].
    eexists. reflexivity. }
  destruct Ha' as [rest Ha']. rewrite Ha'. clear Ha' a'.
  cbn [st]. rewrite settle_file.
  split; [exact Hf|]. split; [reflexivity|]. split; [reflexivity|].
  intros Hdata. split; [split; [exact Hdata | reflexivity]|].
  split.
  - intros e Hchanged.
    destruct e as [fs | | | | o]; auto; exfalso; apply Hchanged;
      cbn [dispatch st pending];
      unfold upload_section, action_buttons, upload_section;
      cbn [analysis analyzeDataset_settle setAnalysis setLoading];
      rewrite ?Hdata; cbn [negb andb st].
    + rewrite settle_file. exact Hf.
    + rewrite settle_file. exact Hf.
    + destruct rest; cbn [st]; rewrite ?settle_file; cbn; exact Hf.
  - cbn [dispatch]. unfold results_section. cbn. rewrite Hdata. reflexivity.
Qed.

(** A click on the analyze button in [FileSelected] enters [Submitting]
    with the same file. *)
Lemma begin_submitting (c : File) (s : State) :
  FileSelected c s -> Submitting c (fst (analyzeDataset_begin s)).
Proof.
  intros (Hf & Hup & _). rewrite (begin_with_file s c Hf).
  repeat split; assumption.
Qed.

(** *** Invariants of every run *)

Lemma start_coherent : coherent start.
Proof.
  split; [reflexivity|]. split; [discriminate | reflexivity].
Qed.

Lemma results_not_upload (s : State) :
  results_section s = true -> upload_section s = true -> False.
Proof.
  unfold results_section, upload_section. intros ->. discriminate.
Qed.

Lemma dispatch_coherent (a : App) (e : Event) :
  coherent a -> coherent (dispatch a e).
Proof.
  intros (Hfl & Hload & Hres).
  split; [apply dispatch_in_flight_ok; exact Hfl|].
  destruct e as [fs | | | | o]; cbn [dispatch].
  - case_eq (upload_section (st a)); intros Hup; [|split; assumption].
    cbn [st]. unfold onDrop.
    destruct (nth_error fs 0); [|split; assumption].
    split; [intros _; split|]; reflexivity.
  - destruct (action_buttons (st a) && negb (analyze_btn_disabled (st a)))
      eqn:Hgo; [|split; assumption].
    apply andb_true_iff in Hgo. destruct Hgo as [Hbtn _].
    apply andb_true_iff in Hbtn. destruct Hbtn as [Hup Hfile].
    destruct (has_file_some _ Hfile) as [c Hc].
    rewrite (begin_with_file _ c Hc). cbn [st].
    split; [intros _; split; [exact Hup | reflexivity] | reflexivity].
  - destruct (action_buttons (st a)); split; assumption.
  - case_eq (results_section (st a)); intros Hr; [|split; assumption].
    cbn [st]. split; [intros Hl; split|]; reflexivity.
  - destruct (pending a) as [|q rest] eqn:Hp; [split; assumption|].
    cbn [st]. rewrite settle_loading.
    split; [discriminate|].
    assert (Hl : loading (st a) = true).
    { unfold in_flight_ok in Hfl. rewrite Hp in Hfl.
      destruct (loading (st a)); [reflexivity | discriminate]. }
    destruct (Hload Hl) as [Hup Herr].
    destruct o as [r | err]; cbn.
    + intros _. exact Herr.
    + intros Hr. exfalso. exact (results_not_upload (st a) Hr Hup).
Qed.

Lemma run_coherent (events : list Event) :
  forall a, coherent a -> coherent (run a events).
Proof.
  unfold run. induction events as [|e events IH]; intros a Hc; cbn.
  - exact Hc.
  - apply IH, dispatch_coherent, Hc.
Qed.

Lemma reachable_coherent (events : list Event) :
  coherent (run start events).
Proof. apply run_coherent, start_coherent. Qed.

(** X1.  Whatever the user does and however requests end, [loading] is
    never set while a result is on display, and while it is set no error
    is stored: a submission starts from a clean upload view and stays
    there until it settles. *)
Theorem loading_excludes_result_and_error (events : list Event) :
  let s := st (run start events) in
  loading s = true ->
  results_section s = false /\ error s = Js.Null /\ error_shown s = false.
Proof.
  intros s Hl.
  destruct (reachable_coherent events) as (_ & Hload & _).
  destruct (Hload Hl) as [Hup Herr]. fold s in Hup, Herr.
  split; [|split].
  - unfold upload_section in Hup. unfold results_section.
    apply negb_true_iff. exact Hup.
  - exact Herr.
  - unfold error_shown. rewrite Herr. cbn. rewrite andb_false_r. reflexivity.
Qed.

(** X2.  A result and an error are never held together: in every state a
    run reaches with the results section on display, [error] is [null]
    and nothing is loading or in flight. *)
Theorem result_excludes_error (events : list Event) :
  let a := run start events in
  results_section (st a) = true ->
  error (st a) = Js.Null /\ loading (st a) = false /\ pending a = [].
Proof.
  intros a Hr.
  destruct (reachable_coherent events) as (Hfl & Hload & Hres).
  fold a in Hfl, Hload, Hres.
  assert (Hl : loading (st a) = false).
  { destruct (loading (st a)) eqn:Hl; [|reflexivity].
    exfalso. exact (results_not_upload _ Hr (proj1 (Hload eq_refl))). }
  split; [exact (Hres Hr)|]. split; [exact Hl|].
  unfold in_flight_ok in Hfl. rewrite Hl in Hfl.
  destruct (pending a); [reflexivity | discriminate].
Qed.

(** X3.  From every state a run reaches with a result on display, a click
    on the new-analysis button gives back exactly the initial state, with
    nothing in flight. *)
Theorem reset_restores_initial (events : list Event) :
  let a := run start events in
  results_section (st a) = true ->
  st (dispatch a ClickReset) = initial /\ pending (dispatch a ClickReset) = [].
Proof.
  intros a Hr.
  destruct (reachable_coherent events) as (Hfl & Hload & _).
  fold a in Hfl, Hload.
  assert (Hl : loading (st a) = false).
  { destruct (loading (st a)) eqn:Hl; [|reflexivity].
    exfalso. exact (results_not_upload _ Hr (proj1 (Hload eq_refl))). }
  cbn [dispatch]. rewrite Hr. cbn [st pending].
  split.
  - unfold resetAnalysis, setError, setAnalysis, setFile, initial. cbn.
    rewrite Hl. reflexivity.
  - unfold in_flight_ok in Hfl. rewrite Hl in Hfl.
    destruct (pending a); [reflexivity | discriminate].
Qed.

(** *** The requests a run issues *)

Lemma dispatch_issued (a : App) (e : Event) :
  issued (dispatch a e) = issued a
  \/ (e = ClickAnalyze
      /\ exists c, file (st a) = Some c
         /\ issued (dispatch a e) =
              (issued a
               ++ [mkRequest "POST" (API_BASE_URL ++ "/analyze_dataset/")
                     "multipart/form-data" [("file", c)] timeout])%list).
Proof.
  destruct e as [fs | | | | o]; cbn [dispatch].
  - left. destruct (upload_section (st a)); reflexivity.
  - destruct (action_buttons (st a) && negb (analyze_btn_disabled (st a)))
      eqn:Hgo; [|left; reflexivity].
    apply andb_true_iff in Hgo. destruct Hgo as [Hbtn _].
    apply andb_true_iff in Hbtn. destruct Hbtn as [_ Hfile].
    destruct (has_file_some _ Hfile) as [c Hc].
    right. split; [reflexivity|]. exists c. split; [exact Hc|].
    rewrite (begin_with_file _ c Hc). reflexivity.
  - left. destruct (action_buttons (st a)); reflexivity.
  - left. destruct (results_section (st a)); reflexivity.
  - left. destruct (pending a); reflexivity.
Qed.

Lemma run_issued_count (events : list Event) :
  forall a,
    (List.length (issued (run a events))
     <= List.length (issued a) + analyze_clicks events)%nat.
Proof.
  unfold run, analyze_clicks.
  induction events as [|e events IH]; intros a; cbn [fold_left filter].
  - cbn. lia.
  - specialize (IH (dispatch a e)).
    destruct (dispatch_issued a e) as [Hsame | (He & c & _ & Hadd)].
    + rewrite Hsame in IH. destruct (is_click_analyze e); cbn; lia.
    + subst e. rewrite Hadd, length_app in IH. cbn in IH |- *. lia.
Qed.

(** X4.  Requests come from clicks on the analyze button only: a run
    never issues more requests than it has such clicks, so nothing is
    retried or sent twice by the component itself. *)
Theorem requests_bounded_by_clicks (events : list Event) :
  (List.length (issued (run start events)) <= analyze_clicks events)%nat.
Proof.
  pose proof (run_issued_count events start) as H. cbn in H. exact H.
Qed.

Lemma file_after_dispatch (a : App) (e : Event) (f : File) :
  file (st (dispatch a e)) = Some f ->
  file (st a) = Some f \/ In f (selections [e]).
Proof.
  destruct e as [fs | | | | o]; cbn [dispatch].
  - destruct (upload_section (st a)); [|auto].
    cbn [st]. unfold onDrop. destruct fs as [|g gs]; cbn; [auto|].
    intros Hf. injection Hf as ->. auto.
  - destruct (action_buttons (st a) && negb (analyze_btn_disabled (st a)))
      eqn:Hgo; [|auto].
    apply andb_true_iff in Hgo. destruct Hgo as [Hbtn _].
    apply andb_true_iff in Hbtn. destruct Hbtn as [_ Hfile].
    destruct (has_file_some _ Hfile) as [c Hc].
    rewrite (begin_with_file _ c Hc). cbn. rewrite Hc. auto.
  - destruct (action_buttons (st a)); [cbn; discriminate | auto].
  - destruct (results_section (st a)); [cbn; discriminate | auto].
  - destruct (pending a); [auto|]. cbn [st]. rewrite settle_file. auto.
Qed.

Lemma selections_app (xs ys : list Event) :
  selections (xs ++ ys) = (selections xs ++ selections ys)%list.
Proof. unfold selections. apply flat_map_app. Qed.

Lemma run_requests (events : list Event) :
  forall (a : App) (known : list File),
    (forall f, file (st a) = Some f -> In f known) ->
    (forall r, In r (issued a) ->
       well_formed_request r /\ incl (map snd (req_fields r)) known) ->
    forall r, In r (issued (run a events)) ->
      well_formed_request r
      /\ incl (map snd (req_fields r)) (known ++ selections events).
Proof.
  unfold run.
  induction events as [|e events IH]; intros a known Hfile Hreq r Hr.
  - cbn in Hr. rewrite app_nil_r. apply Hreq, Hr.
  - cbn [fold_left] in Hr.
    change (e :: events) with ([e] ++ events)%list.
    rewrite selections_app, app_assoc.
    apply (IH (dispatch a e) (known ++ selections [e])%list); [| |exact Hr].
    + intros f Hf. apply in_or_app.
      destruct (file_after_dispatch a e f Hf); auto.
    + intros q Hq.
      destruct (dispatch_issued a e) as [Hsame | (He & c & Hc & Hadd)].
      * rewrite Hsame in Hq. destruct (Hreq q Hq) as [Hwf Hin].
        split; [exact Hwf|]. apply incl_appl. exact Hin.
      * rewrite Hadd in Hq. apply in_app_or in Hq.
        destruct Hq as [Hq | [<- | []]].
        -- destruct (Hreq q Hq) as [Hwf Hin].
           split; [exact Hwf|]. apply incl_appl. exact Hin.
        -- split.
           ++ repeat split; try reflexivity. exists c. reflexivity.
           ++ cbn. intros x [<- | []]. apply in_or_app. left.
              apply Hfile, Hc.
Qed.

(** X5.  Every request a run issues is a POST to
    [API_BASE_URL ++ "/analyze_dataset/"] with the configured timeout and
    the single multipart field ["file"], and the file it carries is one
    that reached [onDrop] earlier in that run. *)
Theorem requests_carry_selected_files (events : list Event) (r : Request) :
  In r (issued (run start events)) ->
  well_formed_request r
  /\ exists f, req_fields r = [("file", f)] /\ In f (selections events).
Proof.
  intros Hr.
  destruct (run_requests events start [] ltac:(discriminate)
              ltac:(intros q []) r Hr) as [Hwf Hin].
  split; [exact Hwf|].
  destruct Hwf as (_ & _ & _ & _ & f & Hf).
  exists f. split; [exact Hf|].
  apply Hin. rewrite Hf. left. reflexivity.
Qed.

(** *** How the handlers compose *)

(** The selection that counts is the last one: dropping again gives the
    state of the later drop alone, dropping the same files twice is
    dropping them once, only the first accepted file matters, and no drop
    touches [loading]. *)
Lemma last_selection_wins (fs gs : list File) (g : File) (s : State) :
  onDrop (g :: gs) (onDrop fs s) = onDrop [g] s
  /\ onDrop fs (onDrop fs s) = onDrop fs s
  /\ loading (onDrop fs s) = loading s.
Proof.
  unfold onDrop. destruct fs as [|f fs']; cbn; repeat split; reflexivity.
Qed.

(** X6.  A retry does not remember the failure before it: for a held
    file, a call of [analyzeDataset] after a failed call ends in the very
    state it would have reached without that failure, and when it
    succeeds no error is left. *)
Theorem retry_forgets_failure
    (c : File) (err : AxiosError) (o : Outcome) (r : Response) (s : State) :
  file s = Some c ->
  analyzeDataset o (analyzeDataset (Rejected err) s) = analyzeDataset o s
  /\ error (analyzeDataset (Resolved r) (analyzeDataset (Rejected err) s))
     = Js.Null.
Proof.
  intros Hf.
  assert (Hfirst : file (analyzeDataset (Rejected err) s) = Some c).
  { unfold analyzeDataset. rewrite (begin_with_file s c Hf).
    rewrite settle_file. exact Hf. }
  unfold analyzeDataset at 1 3 4.
  rewrite (begin_with_file _ c Hfirst), (begin_with_file s c Hf).
  unfold analyzeDataset. rewrite (begin_with_file s c Hf).
  split; [destruct o|]; reflexivity.
Qed.

(** X7.  The error stored after a failure is never falsy.  When the
    server answered with an object whose [detail] is truthy, that very
    value is stored; in every other case (no response, a body that is no
    object, a missing or falsy [detail]) the fixed message is. *)
Theorem stored_error_origin (err : AxiosError) (s : State) :
  let e := error (analyzeDataset_settle (Rejected err) s) in
  Js.truthy e = true
  /\ (forall r fields,
        err_response err = Some r ->
        data r = Js.Obj fields ->
        Js.truthy (Js.lookup "detail" fields) = true ->
        e = Js.lookup "detail" fields)
  /\ (err_response err = None -> e = Js.Str "Error al analizar el dataset")
  /\ (forall r,
        err_response err = Some r ->
        (forall fields, data r <> Js.Obj fields) ->
        e = Js.Str "Error al analizar el dataset")
  /\ (forall r fields,
        err_response err = Some r ->
        data r = Js.Obj fields ->
        Js.truthy (Js.lookup "detail" fields) = false ->
        e = Js.Str "Error al analizar el dataset").
Proof.
  cbn. split; [apply catch_message_truthy|].
  unfold Js.or, detail. repeat split.
  - intros r fields -> Hd Ht. rewrite Hd. cbn [Js.opt_get]. rewrite Ht.
    reflexivity.
  - intros ->. reflexivity.
  - intros r -> Hno.
    destruct (data r) as [| | b | x | t | items | fields]; try reflexivity.
    exfalso. exact (Hno fields eq_refl).
  - intros r fields -> Hd Hf. rewrite Hd. cbn [Js.opt_get]. rewrite Hf.
    reflexivity.
Qed.

(** *** Configuration *)

(** X8.  Whatever the environment holds, the timeout passed to axios is
    never 0. *)
Theorem timeout_never_zero : timeout <> 0.
Proof.
  unfold timeout.
  destruct (ParseInt.of_env (VITE_API_TIMEOUT env)) as [n|]; [|discriminate].
  destruct (Z.eqb_spec n 0); [discriminate | assumption].
Qed.

Lemma append_length (s t : string) :
  String.length (s ++ t) = (String.length s + String.length t)%nat.
Proof.
  induction s as [|ch s IH]; cbn; [reflexivity|]. rewrite IH. reflexivity.
Qed.

(** X9.  Whatever the environment holds, the base URL is never empty, so
    the request never goes to the bare path ["/analyze_dataset/"]. *)
Theorem base_url_never_empty :
  API_BASE_URL <> ""
  /\ API_BASE_URL ++ "/analyze_dataset/" <> "/analyze_dataset/".
Proof.
  assert (Hne : API_BASE_URL <> "").
  { unfold API_BASE_URL.
    destruct (VITE_API_BASE_URL env) as [u|]; [|discriminate].
    destruct (String.eqb_spec u ""); [discriminate | assumption]. }
  split; [exact Hne|].
  intros Heq. apply Hne.
  destruct API_BASE_URL as [|ch rest]; [reflexivity|].
  apply (f_equal String.length) in Heq.
  rewrite append_length in Heq. cbn in Heq. lia.
Qed.

Lemma digits_after_positive (d : Decimal.uint) :
  forall a : positive,
    ParseInt.digits 10 (Some (Z.pos a)) (NilEmpty.string_of_uint d)
    = Some (Z.pos (Pos.of_uint_acc d a)).
Proof.
  induction d; intros a;
    cbn [NilEmpty.string_of_uint ParseInt.digits Pos.of_uint_acc];
    [reflexivity|..];
    match goal with
    | |- context [ParseInt.digit 10 ?ch] =>
        let v := eval vm_compute in (ParseInt.digit 10 ch) in
        change (ParseInt.digit 10 ch) with v
    end;
    cbv beta iota; rewrite <- IHd; do 2 f_equal; lia.
Qed.

Lemma digits_after_zero (d : Decimal.uint) :
  ParseInt.digits 10 (Some 0) (NilEmpty.string_of_uint d)
  = Some (Z.of_N (Pos.of_uint d)).
Proof.
  induction d;
    cbn [NilEmpty.string_of_uint ParseInt.digits Pos.of_uint];
    [reflexivity|..];
    match goal with
    | |- context [ParseInt.digit 10 ?ch] =>
        let v := eval vm_compute in (ParseInt.digit 10 ch) in
        change (ParseInt.digit 10 ch) with v
    end;
    cbv beta iota; [exact IHd|..];
    cbn [Z.mul Z.add Z.of_N]; apply digits_after_positive.
Qed.

Lemma digits_of_numeral (d : Decimal.uint) :
  d <> Decimal.Nil ->
  ParseInt.digits 10 None (NilEmpty.string_of_uint d)
  = Some (Z.of_N (Pos.of_uint d)).
Proof.
  intros Hd. destruct d; [contradiction|..];
    cbn [NilEmpty.string_of_uint ParseInt.digits Pos.of_uint];
    match goal with
    | |- context [ParseInt.digit 10 ?ch] =>
        let v := eval vm_compute in (ParseInt.digit 10 ch) in
        change (ParseInt.digit 10 ch) with v
    end;
    cbv beta iota; [apply digits_after_zero|..];
    cbn [Z.of_N]; apply digits_after_positive.
Qed.

(** A decimal numeral has no white space, sign or radix prefix to strip. *)
Lemma of_string_numeral (d : Decimal.uint) :
  d <> Decimal.Nil ->
  ParseInt.of_string (NilEmpty.string_of_uint d)
  = Some (ParseInt.to_double (Z.of_N (Pos.of_uint d))).
Proof.
  intros Hd.
  assert (Hstrip :
    ParseInt.of_string (NilEmpty.string_of_uint d) =
    match ParseInt.digits 10 None (NilEmpty.string_of_uint d) with
    | Some n => Some (1 * ParseInt.to_double n)
    | None => None
    end).
  { destruct d as [|d'|d'|d'|d'|d'|d'|d'|d'|d'|d']; [contradiction|..];
      try reflexivity.
    destruct d'; reflexivity. }
  rewrite Hstrip, (digits_of_numeral d Hd). f_equal. lia.
Qed.

(** X10.  A timeout written as the decimal numeral of a positive integer
    below 2^53, where every integer is a double, is read back as that
    integer: the configured value round-trips into the request. *)
Theorem timeout_of_numeral (p : positive) :
  Z.pos p < 2 ^ 53 ->
  VITE_API_TIMEOUT env = Some (NilEmpty.string_of_uint (Pos.to_uint p)) ->
  timeout = Z.pos p.
Proof.
  intros Hp Hv. unfold timeout, ParseInt.of_env. rewrite Hv.
  rewrite (of_string_numeral _ (Unsigned.to_uint_nonnil p)).
  rewrite Unsigned.of_to. cbn [Z.of_N].
  unfold ParseInt.to_double.
  destruct (Z.ltb_spec (Z.pos p) (2 ^ 53)) as [_ | Hge]; [reflexivity | lia].
Qed.

(** *** The size printed for the held file *)

(** X11.  The size printed is the true size in KB rounded to one decimal:
    for file sizes (integers from 0 below 2^53) it is off by at most half
    a tenth of a KB, and a larger file never prints a smaller figure. *)
Theorem size_label_accuracy (f g : File) :
  0 <= size f ->
  size f <= size g ->
  size g < 2 ^ 53 ->
  -512 < 1024 * size_tenths f - 10 * size f <= 512
  /\ 0 <= size_tenths f <= size_tenths g.
Proof.
  intros Hf Hfg _. unfold size_tenths.
  pose proof (Z.div_mod (5 * size f + 256) 512 ltac:(lia)) as Hdm.
  pose proof (Z.mod_pos_bound (5 * size f + 256) 512 ltac:(lia)) as Hm.
  split; [lia|]. split.
  - apply Z.div_pos; lia.
  - apply Z.div_le_mono; lia.
Qed.

(** X12.  A file of a whole number [k] of KB prints as [k] followed by
    [.0]. *)
Theorem size_label_whole_kb (f : File) (k : Z) :
  0 <= k ->
  size f = 1024 * k ->
  size f < 2 ^ 53 ->
  size_label f = decimal k ++ ".0".
Proof.
  intros Hk Hs _. unfold size_label, size_tenths. rewrite Hs.
  replace ((5 * (1024 * k) + 256) / 512) with (10 * k).
  - rewrite (Z.mul_comm 10 k), Z.div_mul, Z.mod_mul by lia. reflexivity.
  - apply (Z.div_unique _ 512 (10 * k) 256); lia.
Qed.

(** *** The results section *)

Lemma prop_get_defined (v : Js.val) (f : Field) :
  nullish v = false -> prop_get v f = Done (Js.opt_get v (field_name f)).
Proof. destruct v; cbn; intros H; (discriminate || reflexivity). Qed.

Lemma prop_get_nullish (v : Js.val) (f : Field) :
  nullish v = true -> prop_get v f = TypeError.
Proof. destruct v; cbn; intros H; (discriminate || reflexivity). Qed.

Lemma card_defined (item : Js.val) (index : nat) :
  nullish item = false ->
  card item index =
    Done (mkCard index (Js.opt_get item "titulo") (Js.opt_get item "mensaje")
            (Js.opt_get item "tipo_de_reporte")).
Proof.
  intros Hn. unfold card. rewrite !(prop_get_defined item _ Hn). reflexivity.
Qed.

Lemma map_cards_defined (items : list Js.val) :
  forall index,
    existsb nullish items = false ->
    exists cs,
      map_cards items index = Done cs
      /\ List.length cs = List.length items
      /\ forall i item,
           nth_error items i = Some item ->
           nth_error cs i =
             Some (mkCard (index + i) (Js.opt_get item "titulo")
                     (Js.opt_get item "mensaje")
                     (Js.opt_get item "tipo_de_reporte")).
Proof.
  induction items as [|x rest IH]; intros index Hok.
  - exists []. repeat split. intros [|i] item H; discriminate H.
  - cbn in Hok. apply orb_false_iff in Hok. destruct Hok as [Hx Hrest].
    destruct (IH (S index) Hrest) as (cs & Hcs & Hlen & Hnth).
    exists (mkCard index (Js.opt_get x "titulo") (Js.opt_get x "mensaje")
              (Js.opt_get x "tipo_de_reporte") :: cs).
    cbn [map_cards]. rewrite (card_defined x index Hx). cbn [bind].
    rewrite Hcs. cbn [bind]. split; [reflexivity|].
    split; [cbn; rewrite Hlen; reflexivity|].
    intros [|i] item Hi; cbn in Hi |- *.
    + injection Hi as <-. rewrite Nat.add_0_r. reflexivity.
    + rewrite (Hnth i item Hi). rewrite Nat.add_succ_r. reflexivity.
Qed.

Lemma map_cards_raises (items : list Js.val) :
  forall index,
    existsb nullish items = true -> map_cards items index = TypeError.
Proof.
  induction items as [|x rest IH]; intros index Hbad; [discriminate|].
  cbn in Hbad. cbn [map_cards].
  destruct (nullish x) eqn:Hx.
  - unfold card. rewrite (prop_get_nullish x _ Hx). reflexivity.
  - rewrite (card_defined x index Hx). cbn [bind].
    rewrite (IH (S index) Hbad). reflexivity.
Qed.



Lemma findings_raises (v : Js.val) (message : string) :
  findings v message = TypeError <-> bad_list v = true.
Proof.
  unfold findings.
  destruct v as [| | b | x | s | items | fields]; cbn [length_gt_zero bind bad_list].
  - tauto.
  - tauto.
  - split; discriminate.
  - split; discriminate.
  - destruct (String.eqb s ""); cbn; split; (discriminate || reflexivity).
  - destruct items as [|x rest].
    + cbn. split; discriminate.
    + cbn [List.length Nat.eqb negb call_map].
      destruct (existsb nullish (x :: rest)) eqn:Hex.
      * rewrite (map_cards_raises _ 0%nat Hex). tauto.
      * destruct (map_cards_defined _ 0%nat Hex) as (cs & Hcs & _).
        rewrite Hcs. cbn. split; discriminate.
  - destruct (gt_zero (Js.lookup "length" fields)); cbn;
      split; (discriminate || reflexivity).
Qed.

Lemma findings_defined (v : Js.val) (message : string) :
  bad_list v = false -> exists shown, findings v message = Done shown.
Proof.
  intros Hok. destruct (findings v message) as [shown|] eqn:Hf; [eauto|].
  apply findings_raises in Hf. rewrite Hf in Hok. discriminate.
Qed.

(** X14.  Evaluating the results section raises [TypeError] exactly for a
    malformed body: one that is no object or has no [metricas], or whose
    [observaciones] or [sugerencias] is missing, [null], a non-empty
    string, an object with a positive [length], or an array holding a
    [null]. *)
Theorem results_view_raises (a : Js.val) :
  results_view a = TypeError <-> malformed a = true.
Proof.
  unfold results_view, malformed.
  destruct (nullish a) eqn:Ha.
  - rewrite (prop_get_nullish a _ Ha). cbn. tauto.
  - rewrite !(prop_get_defined a _ Ha). cbn [bind field_name orb].
    destruct (nullish (Js.opt_get a "metricas")) eqn:Hm.
    + rewrite (prop_get_nullish _ _ Hm). cbn. tauto.
    + rewrite !(prop_get_defined _ _ Hm). cbn [bind orb].
      destruct (bad_list (Js.opt_get a "observaciones")) eqn:Ho.
      * rewrite (proj2 (findings_raises _ _) Ho). cbn. tauto.
      * destruct (findings_defined _
                    "No se encontraron observaciones relevantes." Ho)
          as (obs & Hobs).
        rewrite Hobs. cbn [bind orb].
        destruct (bad_list (Js.opt_get a "sugerencias")) eqn:Hg.
        -- rewrite (proj2 (findings_raises _ _) Hg). cbn. tauto.
        -- destruct (findings_defined _ "No hay sugerencias disponibles." Hg)
             as (sug & Hsug).
           rewrite Hsug. cbn. split; discriminate.
Qed.

(** X15.  For a body that is not malformed the results section shows the
    three metrics read from [metricas] ([undefined] for a missing one) and
    the two findings lists, each drawn from its own property. *)
Theorem results_view_content (a : Js.val) :
  malformed a = false ->
  exists obs sug,
    findings (Js.opt_get a "observaciones")
      "No se encontraron observaciones relevantes." = Done obs
    /\ findings (Js.opt_get a "sugerencias")
         "No hay sugerencias disponibles." = Done sug
    /\ results_view a =
         Done (mkResultsView
                 (Js.opt_get (Js.opt_get a "metricas")
                    "porcentaje_valores_faltantes")
                 (Js.opt_get (Js.opt_get a "metricas")
                    "porcentaje_filas_duplicadas")
                 (Js.opt_get (Js.opt_get a "metricas") "salud_del_dataset")
                 obs sug).
Proof.
  unfold malformed. intros Hok.
  apply orb_false_iff in Hok. destruct Hok as [Hok Hg].
  apply orb_false_iff in Hok. destruct Hok as [Hok Ho].
  apply orb_false_iff in Hok. destruct Hok as [Ha Hm].
  destruct (findings_defined _
              "No se encontraron observaciones relevantes." Ho)
    as (obs & Hobs).
  destruct (findings_defined _ "No hay sugerencias disponibles." Hg)
    as (sug & Hsug).
  exists obs, sug. split; [exact Hobs|]. split; [exact Hsug|].
  unfold results_view.
  rewrite !(prop_get_defined a _ Ha). cbn [bind field_name].
  rewrite !(prop_get_defined _ _ Hm). cbn [bind field_name].
  rewrite Hobs. cbn [bind]. rewrite Hsug. reflexivity.
Qed.

(** *** Nothing cancels a request *)

(** X16.  Clearing the file or dropping another one while a request is
    awaited does not cancel it: when it succeeds its body is still stored,
    next to no file after a clear and next to the newly dropped file after
    a drop, and no further request has been issued. *)
Theorem request_is_not_cancelled
    (a : App) (c g : File) (gs : list File) (r : Response) :
  Submitting c (st a) ->
  in_flight_ok a ->
  let cleared := run a [ClickClear; Settle (Resolved r)] in
  let replaced := run a [Drop (g :: gs); Settle (Resolved r)] in
  file (st cleared) = None
  /\ analysis (st cleared) = data r
  /\ issued cleared = issued a
  /\ file (st replaced) = Some g
  /\ analysis (st replaced) = data r
  /\ issued replaced = issued a.
Proof.
  intros (Hf & Hup & Hl) Hfl cleared replaced.
  unfold in_flight_ok in Hfl. rewrite Hl in Hfl.
  destruct (pending a) as [|q rest] eqn:Hp; [discriminate|].
  subst cleared replaced. unfold run. cbn [fold_left dispatch].
  unfold action_buttons, has_file. rewrite Hup, Hf. cbn [andb st pending].
  rewrite Hp. cbn. repeat split; reflexivity.
Qed.
(** *** After a submission settles *)

Lemma falsy_drawable (v : Js.val) : Js.truthy v = false -> drawable v = true.
Proof. destruct v; cbn; intros H; (reflexivity || discriminate). Qed.

(** The fixed message can always be drawn, so what [catch] stores can be
    drawn exactly when the [detail] can. *)
Lemma catch_message_drawable (v : Js.val) :
  drawable (Js.or v (Js.Str "Error al analizar el dataset")) = drawable v.
Proof.
  unfold Js.or. destruct (Js.truthy v) eqn:Hv; [reflexivity|].
  rewrite (falsy_drawable v Hv). reflexivity.
Qed.

(** After a settlement that found the upload section with no error
    stored, the page is on screen exactly when what the outcome stored
    can be drawn. *)
Lemma page_after_settle (o : Outcome) (s : State) :
  upload_section s = true ->
  error s = Js.Null ->
  page_draws (analyzeDataset_settle o s) = outcome_draws o.
Proof.
  intros Hup Herr. unfold page_draws, upload_section, outcome_draws.
  destruct o as [r | err]; cbn.
  - rewrite Herr. destruct (Js.truthy (data r)); reflexivity.
  - unfold upload_section in Hup. rewrite Hup.
    rewrite catch_message_truthy, catch_message_drawable. reflexivity.
Qed.

Lemma page_after_call (o : Outcome) (c : File) (s : State) :
  FileSelected c s -> page_draws (analyzeDataset o s) = outcome_draws o.
Proof.
  intros (Hf & Hup & _). unfold analyzeDataset.
  rewrite (begin_with_file s c Hf).
  apply page_after_settle; [exact Hup | reflexivity].
Qed.

Lemma dispatch_draws (a : App) (e : Event) :
  coherent a ->
  page_draws (st a) = true ->
  outcomes_draw [e] = true ->
  page_draws (st (dispatch a e)) = true.
Proof.
  intros (Hfl & Hload & _) Hpage He.
  destruct e as [fs | | | | o]; cbn [dispatch].
  - destruct (upload_section (st a)); [|exact Hpage].
    cbn [st]. unfold onDrop. destruct (nth_error fs 0); [reflexivity|].
    exact Hpage.
  - destruct (action_buttons (st a) && negb (analyze_btn_disabled (st a)))
      eqn:Hgo; [|exact Hpage].
    apply andb_true_iff in Hgo. destruct Hgo as [Hbtn _].
    apply andb_true_iff in Hbtn. destruct Hbtn as [Hup Hfile].
    destruct (has_file_some _ Hfile) as [c Hc].
    rewrite (begin_with_file _ c Hc). cbn [st].
    unfold page_draws, upload_section in *. cbn. rewrite Hup. reflexivity.
  - destruct (action_buttons (st a)); exact Hpage.
  - destruct (results_section (st a)); [reflexivity | exact Hpage].
  - destruct (pending a) as [|q rest] eqn:Hp; [exact Hpage|].
    cbn [st].
    assert (Hl : loading (st a) = true).
    { unfold in_flight_ok in Hfl. rewrite Hp in Hfl.
      destruct (loading (st a)); [reflexivity | discriminate]. }
    destruct (Hload Hl) as [Hup Herr].
    rewrite (page_after_settle o (st a) Hup Herr).
    cbn in He. rewrite andb_true_r in He. exact He.
Qed.

Lemma run_draws (events : list Event) :
  forall a,
    coherent a ->
    page_draws (st a) = true ->
    outcomes_draw events = true ->
    page_draws (st (run a events)) = true.
Proof.
  unfold run. induction events as [|e events IH]; intros a Hc Hpage Hev.
  - exact Hpage.
  - cbn [fold_left].
    change (outcomes_draw ([e] ++ events) = true) in Hev.
    unfold outcomes_draw in Hev. rewrite forallb_app in Hev.
    apply andb_true_iff in Hev. destruct Hev as [He Hrest].
    apply IH; [apply dispatch_coherent, Hc | | exact Hrest].
    apply dispatch_draws; assumption.
Qed.

(** C4 (as amended).  When a submission for the held file [c] fails, the
    file is still [c] and nothing but [error] and [loading] has changed.
    When the [detail] the server sent, if any, can be drawn, the upload
    section is on screen with the error shown and the analyze button
    rendered and enabled: a click submits [c] again. *)
Theorem failure_keeps_candidate (c : File) (err : AxiosError) (s : State) :
  Submitting c s ->
  let s' := analyzeDataset_settle (Rejected err) s in
  file s' = Some c
  /\ analysis s' = analysis s
  /\ loading s' = false
  /\ (drawable (detail err) = true ->
      Failed c s'
      /\ page_draws s' = true
      /\ error_shown s' = true
      /\ action_buttons s' = true
      /\ analyze_btn_disabled s' = false
      /\ snd (analyzeDataset_begin s') =
           Some (mkRequest "POST" (API_BASE_URL ++ "/analyze_dataset/")
                   "multipart/form-data" [("file", c)] timeout)).
Proof.
  intros (Hf & Hup & _) s'.
  pose proof (settle_rejected_failed c err s Hf Hup) as Hfailed.
  fold s' in Hfailed.
  destruct Hfailed as [(Hf' & Hup' & Hl) Herr].
  split; [exact Hf'|]. split; [reflexivity|]. split; [exact Hl|].
  intros Hdraw.
  assert (Hd : drawable (error s') = true).
  { subst s'. cbn. rewrite catch_message_drawable. exact Hdraw. }
  split; [split; [repeat split|]; assumption|].
  split; [unfold page_draws; rewrite Hup', Hd; apply orb_true_r|].
  split; [unfold error_shown; rewrite Hup', Herr, Hd; reflexivity|].
  split; [unfold action_buttons, has_file; rewrite Hup', Hf'; reflexivity|].
  split; [exact Hl|].
  rewrite (begin_with_file s' c Hf'). reflexivity.
Qed.

(** C5 (as amended).  A click on the analyze button, any events while the
    request is awaited, and then the request's outcome, success or
    failure alike, leave [loading] cleared and nothing in flight, and one
    uninterrupted call of [analyzeDataset] on a held file always ends
    with [loading] cleared: [catch] takes every rejection.  The component
    is then interactive when what the outcome stored can be drawn; so it
    is after the whole run when the page was on screen before it and
    every outcome received in it can be drawn. *)
Theorem analyze_never_stuck (a : App) (during : list Event) (o : Outcome) :
  in_flight_ok a ->
  let a' := run a (ClickAnalyze :: during ++ [Settle o]) in
  loading (st a') = false
  /\ pending a' = []
  /\ (forall s c, file s = Some c -> loading (analyzeDataset o s) = false)
  /\ (forall s c,
        FileSelected c s ->
        outcome_draws o = true ->
        interactive (analyzeDataset o s))
  /\ (coherent a ->
      page_draws (st a) = true ->
      outcomes_draw (during ++ [Settle o]) = true ->
      interactive (st a')).
Proof.
  intros Hinv a'.
  assert (Hlast : a' = dispatch (run a (ClickAnalyze :: during)) (Settle o)).
  { subst a'. unfold run. rewrite app_comm_cons, fold_left_app. reflexivity. }
  pose proof (run_in_flight_ok (ClickAnalyze :: during) a Hinv) as Hmid.
  destruct (settle_clears_loading _ o Hmid) as [Hl Hp].
  rewrite <- Hlast in Hl, Hp.
  split; [exact Hl|]. split; [exact Hp|]. split; [|split].
  - intros s c Hf. unfold analyzeDataset. rewrite (begin_with_file s c Hf).
    apply settle_loading.
  - intros s c Hsel Hdraw. split.
    + destruct Hsel as (Hf & _). unfold analyzeDataset.
      rewrite (begin_with_file s c Hf). apply settle_loading.
    + rewrite (page_after_call o c s Hsel). exact Hdraw.
  - intros Hc Hpage Hev. split; [exact Hl|].
    subst a'. apply run_draws; [exact Hc | exact Hpage | exact Hev].
Qed.

End Controller.

Arguments Done {A} a.
Arguments TypeError {A}.

(** ** The claims at concrete inputs *)

Import Sample.

(** [parseInt] on the strings an environment variable may hold. *)
Example parseInt_samples :
  ParseInt.of_env None = None
  /\ ParseInt.of_string "30000" = Some 30000
  /\ ParseInt.of_string " 42px" = Some 42
  /\ ParseInt.of_string "0x1F" = Some 31
  /\ ParseInt.of_string "abc" = None
  /\ ParseInt.of_string "" = None
  /\ ParseInt.of_string "0" = Some 0
  /\ ParseInt.of_string "-5" = Some (-5).
Proof. repeat split; reflexivity. Qed.

(** The scenario of the specification: [sales.csv] is selected and
    analysed, the service answers with one suggestion and no observation. *)
Example sales_scenario :
  let a := run no_env start
             [Drop (offered by_type_or_extension sales_csv); ClickAnalyze;
              Settle (Resolved (mkResponse 200 report))] in
  Succeeded (st a)
  /\ file (st a) = Some sales_csv
  /\ Js.opt_get (analysis (st a)) "observaciones" = Js.Arr []
  /\ List.length (issued a) = 1%nat
  /\ pending a = [].
Proof. repeat split; reflexivity. Qed.

Lemma analyze_while_submitting_is_noop_witness :
  let a := run no_env start [Drop [sales_csv]; ClickAnalyze] in
  loading (st a) = true
  /\ in_flight_ok a
  /\ dispatch no_env a ClickAnalyze = a
  /\ issued (dispatch no_env a ClickAnalyze) = issued a
  /\ (List.length
        (pending
           (run no_env a
              [ClickAnalyze; ClickClear; Drop [book_xlsx]; ClickAnalyze]))
      <= 1)%nat.
Proof.
  intros a.
  split; [reflexivity|]. split; [reflexivity|].
  apply (analyze_while_submitting_is_noop no_env a
           [ClickClear; Drop [book_xlsx]; ClickAnalyze]); reflexivity.
Defined.

Lemma analyze_without_file_witness :
  file initial = None
  /\ snd (analyzeDataset_begin no_env initial) = None
  /\ error (analyzeDataset no_env (Resolved (mkResponse 200 report)) initial)
     = Js.Str "Por favor selecciona un archivo".
Proof.
  split; [reflexivity|].
  pose proof (analyze_without_file no_env
                (Resolved (mkResponse 200 report)) initial eq_refl) as H.
  split; [apply H | apply H].
Defined.

(** C2, refuted as stated: on the same submitting state a timeout and a
    transport failure leave the same state, and so does a failure status
    whose body has no [detail]; two failure statuses with the same
    [detail] leave the same state too, the status code being dropped. *)
Lemma failure_kinds_collapse :
  let s := st (run no_env start [Drop [sales_csv]; ClickAnalyze]) in
  analyzeDataset_settle (Rejected (axios_error Timeout)) s
  = analyzeDataset_settle (Rejected (axios_error Transport)) s
  /\ kind_of Timeout <> kind_of Transport
  /\ analyzeDataset_settle (Rejected (axios_error (BadStatus bare_failure))) s
     = analyzeDataset_settle (Rejected (axios_error Timeout)) s
  /\ kind_of (BadStatus bare_failure) <> kind_of Timeout
  /\ analyzeDataset_settle
       (Rejected (axios_error (BadStatus internal_error))) s
     = analyzeDataset_settle (Rejected (axios_error (BadStatus unavailable))) s
  /\ status internal_error <> status unavailable.
Proof.
  cbv zeta. repeat split; try reflexivity; discriminate.
Qed.

(** No function of the state after a failure tells the kind of failure. *)
Corollary no_failure_classifier :
  ~ exists classify : State -> FailureKind,
      forall (f : Failure) (s : State),
        classify (analyzeDataset_settle (Rejected (axios_error f)) s)
        = kind_of f.
Proof.
  intros [classify Hc].
  pose proof (Hc Timeout initial) as H1.
  pose proof (Hc Transport initial) as H2.
  pose proof (eq_trans (eq_sym H1) H2 : KTimeout = KTransport) as H.
  discriminate H.
Qed.

(** C3, refuted as stated: with a result on display the clear control
    does not exist, and its handler would leave the result in place; after
    a failure a click on it leaves the error on display.  Neither state
    reached is [Idle]. *)
Lemma clear_leaves_result_or_error :
  let succeeded :=
    run no_env start
      [Drop [sales_csv]; ClickAnalyze;
       Settle (Resolved (mkResponse 200 report))] in
  let failed :=
    run no_env start
      [Drop [sales_csv]; ClickAnalyze;
       Settle (Rejected (axios_error Timeout))] in
  Succeeded (st succeeded)
  /\ ~ Idle (st (dispatch no_env succeeded ClickClear))
  /\ ~ Idle (clearFile (st succeeded))
  /\ Failed sales_csv (st failed)
  /\ error (st (dispatch no_env failed ClickClear))
     = Js.Str "Error al analizar el dataset"
  /\ ~ Idle (st (dispatch no_env failed ClickClear)).
Proof.
  cbv zeta. split; [split; reflexivity|].
  split; [intros (_ & H & _); vm_compute in H; discriminate|].
  split; [intros (_ & H & _); vm_compute in H; discriminate|].
  split; [repeat split; reflexivity|].
  split; [reflexivity|].
  intros (_ & _ & H & _); vm_compute in H; discriminate.
Qed.

Lemma clear_by_view_witness :
  let a := run no_env start [Drop [sales_csv]] in
  file (st a) = Some sales_csv
  /\ file (st (dispatch no_env a ClickClear)) = None
  /\ Idle (st (dispatch no_env a ClickClear)).
Proof.
  intros a.
  pose proof (clear_by_view no_env a sales_csv eq_refl) as H.
  change (results_section (st a)) with false in H.
  destruct H as (Hfile & _ & _ & _ & _ & Hidle).
  split; [reflexivity|].
  split; [exact Hfile | exact (Hidle eq_refl eq_refl)].
Defined.

(** C4, refuted as stated: a 422 whose [detail] is an array of objects is
    stored as it came; React cannot draw it, so after this failure the
    file is still held but the page is off screen, with no error shown
    and no button to retry with. *)
Lemma undrawable_detail_leaves_no_page :
  let s := st (run no_env start [Drop [sales_csv]; ClickAnalyze]) in
  let s' :=
    analyzeDataset_settle (Rejected (axios_error (BadStatus validation_error)))
      s in
  Submitting sales_csv s
  /\ file s' = Some sales_csv
  /\ error s' = Js.opt_get (data validation_error) "detail"
  /\ drawable (error s') = false
  /\ page_draws to_number s' = false
  /\ error_shown s' = false.
Proof. cbv zeta. repeat split; reflexivity. Qed.

Lemma failure_keeps_candidate_witness :
  let s := st (run no_env start [Drop [sales_csv]; ClickAnalyze]) in
  let s' :=
    analyzeDataset_settle (Rejected (axios_error (BadStatus internal_error)))
      s in
  Submitting sales_csv s
  /\ drawable (detail (axios_error (BadStatus internal_error))) = true
  /\ file s' = Some sales_csv
  /\ Failed sales_csv s'
  /\ page_draws to_number s' = true
  /\ error_shown s' = true
  /\ error s' = Js.Str "internal error".
Proof.
  intros s s'.
  assert (Hs : Submitting sales_csv s) by (repeat split; reflexivity).
  pose proof (failure_keeps_candidate no_env to_number sales_csv
                (axios_error (BadStatus internal_error)) s Hs) as H.
  destruct H as (Hfile & _ & _ & Hshown).
  destruct (Hshown eq_refl) as (Hfailed & Hpage & Herr & _).
  split; [exact Hs|]. split; [reflexivity|]. split; [exact Hfile|].
  split; [exact Hfailed|]. split; [exact Hpage|]. split; [exact Herr|].
  reflexivity.
Defined.

(** C5, refuted as stated: a 200 whose body is the text [OK] and a 422
    whose [detail] is an array of objects both leave [loading] cleared
    and nothing in flight, and both leave the page off screen: drawing
    raises and nothing catches it. *)
Lemma settled_page_can_be_blank :
  let after_success :=
    run no_env start
      [Drop [sales_csv]; ClickAnalyze;
       Settle (Resolved (mkResponse 200 (Js.Str "OK")))] in
  let after_failure :=
    run no_env start
      [Drop [sales_csv]; ClickAnalyze;
       Settle (Rejected (axios_error (BadStatus validation_error)))] in
  loading (st after_success) = false
  /\ pending after_success = []
  /\ results_view to_number (analysis (st after_success)) = TypeError
  /\ page_draws to_number (st after_success) = false
  /\ ~ interactive to_number (st after_success)
  /\ loading (st after_failure) = false
  /\ pending after_failure = []
  /\ page_draws to_number (st after_failure) = false
  /\ ~ interactive to_number (st after_failure).
Proof.
  cbv zeta. repeat split; try reflexivity;
    intros [_ H]; vm_compute in H; discriminate.
Qed.

Lemma analyze_never_stuck_witness :
  let events := [Drop [sales_csv]; ClickAnalyze; ClickClear] in
  let o := Rejected (axios_error Transport) in
  in_flight_ok start
  /\ coherent start
  /\ page_draws to_number (st start) = true
  /\ outcomes_draw to_number (events ++ [Settle o]) = true
  /\ loading (st (run no_env start (ClickAnalyze :: events ++ [Settle o])))
     = false
  /\ interactive to_number
       (st (run no_env start (ClickAnalyze :: events ++ [Settle o]))).
Proof.
  intros events o.
  assert (Hfl : in_flight_ok start) by reflexivity.
  assert (Hc : coherent start)
    by (split; [reflexivity | split; [discriminate | reflexivity]]).
  pose proof (analyze_never_stuck no_env to_number start events o Hfl) as H.
  destruct H as (Hl & _ & _ & _ & Hrun).
  split; [exact Hfl|]. split; [exact Hc|]. split; [reflexivity|].
  split; [reflexivity|]. split; [exact Hl|].
  exact (Hrun Hc eq_refl eq_refl).
Defined.

Lemma select_valid_file_witness :
  by_type_or_extension (accept dropzone_options) sales_csv = true
  /\ file (select by_type_or_extension sales_csv
             (mkState (Some book_xlsx) report false (Js.Str "stale")))
     = Some sales_csv.
Proof.
  split; [reflexivity|].
  apply (select_valid_file by_type_or_extension sales_csv
           (mkState (Some book_xlsx) report false (Js.Str "stale"))).
  reflexivity.
Defined.

(** C7, refuted as stated: [report.pdf] is turned away, and the component
    reports nothing about it; no error is stored or shown. *)
Lemma rejected_file_reports_nothing :
  let a := dispatch no_env start
             (Drop (offered by_type_or_extension report_pdf)) in
  by_type_or_extension (accept dropzone_options) report_pdf = false
  /\ a = start
  /\ error (st a) = Js.Null
  /\ error_shown (st a) = false.
Proof. cbv zeta. repeat split; reflexivity. Qed.

Lemma select_rejected_file_witness :
  by_type_or_extension (accept dropzone_options) report_pdf = false
  /\ dispatch no_env start (Drop (offered by_type_or_extension report_pdf))
     = start.
Proof.
  split; [reflexivity|].
  apply (select_rejected_file no_env by_type_or_extension report_pdf start).
  reflexivity.
Defined.

(** C9, refuted as stated: ["-5"] is no positive integer, yet it is the
    timeout of the request, not 30000. *)
Lemma negative_timeout_is_used :
  let a := run negative_timeout_env start [Drop [sales_csv]; ClickAnalyze] in
  ParseInt.of_env (VITE_API_TIMEOUT negative_timeout_env) = Some (-5)
  /\ timeout negative_timeout_env = -5
  /\ timeout negative_timeout_env <> 30000
  /\ map req_timeout (issued a) = [-5].
Proof. cbv zeta. repeat split; try reflexivity; discriminate. Qed.

Lemma submission_uses_configuration_witness :
  let a := run no_env start [Drop [sales_csv]] in
  action_buttons (st a) = true
  /\ analyze_btn_disabled (st a) = false
  /\ exists r,
       issued (dispatch no_env a ClickAnalyze) = (issued a ++ [r])%list
       /\ pending (dispatch no_env a ClickAnalyze) = (pending a ++ [r])%list
       /\ req_method r = "POST"
       /\ req_url r = API_BASE_URL no_env ++ "/analyze_dataset/"
       /\ req_timeout r = timeout no_env.
Proof.
  intros a.
  split; [reflexivity|]. split; [reflexivity|].
  apply (submission_uses_configuration no_env a); reflexivity.
Defined.

Lemma success_keeps_candidate_witness :
  let a := run no_env start [Drop [sales_csv]; ClickAnalyze] in
  file (st a) = Some sales_csv
  /\ loading (st a) = true
  /\ in_flight_ok a
  /\ file (st (dispatch no_env a (Settle (Resolved (mkResponse 200 report)))))
     = Some sales_csv.
Proof.
  intros a.
  split; [reflexivity|]. split; [reflexivity|]. split; [reflexivity|].
  apply (success_keeps_candidate no_env a sales_csv (mkResponse 200 report));
    reflexivity.
Defined.

(** ** Further properties at concrete inputs *)

(** The sizes the upload section prints: a tie goes up ([0.25] KB prints
    as [0.3]), 51 bytes round down to [0.0] and 52 up to [0.1]. *)
Example size_label_samples :
  size_label sales_csv = "12.0"
  /\ size_label (mkFile "quarter.csv" 256 "text/csv" []) = "0.3"
  /\ size_label (mkFile "tiny.csv" 51 "text/csv" []) = "0.0"
  /\ size_label (mkFile "tiny.csv" 52 "text/csv" []) = "0.1"
  /\ size_label (mkFile "half.csv" 1536 "text/csv" []) = "1.5".
Proof. repeat split; reflexivity. Qed.

(** A successful answer whose body is the text [OK] is truthy, so the
    results section is chosen, and evaluating it raises. *)
Example plain_text_body_raises :
  let a := run no_env start
             [Drop [sales_csv]; ClickAnalyze;
              Settle (Resolved (mkResponse 200 (Js.Str "OK")))] in
  results_section (st a) = true
  /\ results_view to_number (analysis (st a)) = TypeError.
Proof. split; reflexivity. Qed.

Lemma loading_excludes_result_and_error_witness :
  let s := st (run no_env start [Drop [sales_csv]; ClickAnalyze]) in
  loading s = true /\ results_section s = false /\ error s = Js.Null.
Proof.
  intros s. split; [reflexivity|].
  pose proof (loading_excludes_result_and_error no_env
                [Drop [sales_csv]; ClickAnalyze] eq_refl) as H.
  split; apply H.
Defined.

Lemma result_excludes_error_witness :
  let a := run no_env start
             [Drop [sales_csv]; ClickAnalyze;
              Settle (Rejected (axios_error Timeout)); ClickAnalyze;
              Settle (Resolved (mkResponse 200 report))] in
  results_section (st a) = true
  /\ error (st a) = Js.Null /\ loading (st a) = false /\ pending a = [].
Proof.
  intros a. split; [reflexivity|].
  apply (result_excludes_error no_env
           [Drop [sales_csv]; ClickAnalyze;
            Settle (Rejected (axios_error Timeout)); ClickAnalyze;
            Settle (Resolved (mkResponse 200 report))]).
  reflexivity.
Defined.

Lemma reset_restores_initial_witness :
  let a := run no_env start
             [Drop [sales_csv]; ClickAnalyze;
              Settle (Resolved (mkResponse 200 report))] in
  results_section (st a) = true
  /\ st (dispatch no_env a ClickReset) = initial
  /\ pending (dispatch no_env a ClickReset) = [].
Proof.
  intros a. split; [reflexivity|].
  apply (reset_restores_initial no_env
           [Drop [sales_csv]; ClickAnalyze;
            Settle (Resolved (mkResponse 200 report))]).
  reflexivity.
Defined.

Lemma requests_carry_selected_files_witness :
  let events := [Drop [sales_csv; book_xlsx]; ClickAnalyze; ClickAnalyze] in
  let r := mkRequest "POST" "http://localhost:8000/analyze_dataset/"
             "multipart/form-data" [("file", sales_csv)] 30000 in
  In r (issued (run no_env start events))
  /\ well_formed_request no_env r
  /\ exists f, req_fields r = [("file", f)] /\ In f (selections events).
Proof.
  intros events r.
  assert (Hr : In r (issued (run no_env start events)))
    by (left; reflexivity).
  split; [exact Hr|].
  exact (requests_carry_selected_files no_env events r Hr).
Defined.

Lemma retry_forgets_failure_witness :
  let s := mkState (Some sales_csv) Js.Null false Js.Null in
  file s = Some sales_csv
  /\ error
       (analyzeDataset no_env (Resolved (mkResponse 200 report))
          (analyzeDataset no_env
             (Rejected (axios_error (BadStatus internal_error))) s))
     = Js.Null.
Proof.
  intros s. split; [reflexivity|].
  apply (retry_forgets_failure no_env sales_csv
           (axios_error (BadStatus internal_error))
           (Resolved (mkResponse 200 report)) (mkResponse 200 report) s).
  reflexivity.
Defined.

Lemma stored_error_origin_witness :
  let err := axios_error (BadStatus internal_error) in
  err_response err = Some internal_error
  /\ data internal_error = Js.Obj [("detail", Js.Str "internal error")]
  /\ Js.truthy (Js.lookup "detail" [("detail", Js.Str "internal error")])
     = true
  /\ error (analyzeDataset_settle (Rejected err) initial)
     = Js.lookup "detail" [("detail", Js.Str "internal error")].
Proof.
  intros err.
  split; [reflexivity|]. split; [reflexivity|]. split; [reflexivity|].
  exact (proj1 (proj2 (stored_error_origin err initial))
           internal_error [("detail", Js.Str "internal error")]
           eq_refl eq_refl eq_refl).
Defined.

Lemma timeout_of_numeral_witness :
  45000 < 2 ^ 53
  /\ VITE_API_TIMEOUT decimal_timeout_env
     = Some (NilEmpty.string_of_uint (Pos.to_uint 45000))
  /\ timeout decimal_timeout_env = 45000.
Proof.
  split; [reflexivity|]. split; [reflexivity|].
  apply (timeout_of_numeral decimal_timeout_env 45000); reflexivity.
Defined.

Lemma size_label_accuracy_witness :
  0 <= size sales_csv
  /\ size sales_csv <= size book_xlsx
  /\ size book_xlsx < 2 ^ 53
  /\ -512 < 1024 * size_tenths sales_csv - 10 * size sales_csv <= 512
  /\ 0 <= size_tenths sales_csv <= size_tenths book_xlsx.
Proof.
  split; [cbn; lia|]. split; [cbn; lia|]. split; [reflexivity|].
  apply (size_label_accuracy sales_csv book_xlsx);
    [cbn; lia | cbn; lia | reflexivity].
Defined.

Lemma size_label_whole_kb_witness :
  0 <= 12
  /\ size sales_csv = 1024 * 12
  /\ size sales_csv < 2 ^ 53
  /\ size_label sales_csv = decimal 12 ++ ".0".
Proof.
  split; [lia|]. split; [reflexivity|]. split; [reflexivity|].
  apply (size_label_whole_kb sales_csv 12); [lia | reflexivity | reflexivity].
Defined.



Lemma results_view_raises_witness :
  malformed to_number (Js.Str "OK") = true
  /\ results_view to_number (Js.Str "OK") = TypeError.
Proof.
  split; [reflexivity|].
  apply (results_view_raises to_number (Js.Str "OK")). reflexivity.
Defined.

Lemma results_view_content_witness :
  malformed to_number report = false
  /\ exists obs sug,
       findings to_number (Js.opt_get report "observaciones")
         "No se encontraron observaciones relevantes." = Done obs
       /\ findings to_number (Js.opt_get report "sugerencias")
            "No hay sugerencias disponibles." = Done sug
       /\ results_view to_number report =
            Done (mkResultsView
                    (Js.opt_get (Js.opt_get report "metricas")
                       "porcentaje_valores_faltantes")
                    (Js.opt_get (Js.opt_get report "metricas")
                       "porcentaje_filas_duplicadas")
                    (Js.opt_get (Js.opt_get report "metricas")
                       "salud_del_dataset")
                    obs sug).
Proof.
  split; [reflexivity|].
  apply (results_view_content to_number report). reflexivity.
Defined.

Lemma request_is_not_cancelled_witness :
  let a := run no_env start [Drop [sales_csv]; ClickAnalyze] in
  Submitting sales_csv (st a)
  /\ in_flight_ok a
  /\ file (st (run no_env a
                 [ClickClear; Settle (Resolved (mkResponse 200 report))]))
     = None
  /\ analysis
       (st (run no_env a
              [ClickClear; Settle (Resolved (mkResponse 200 report))]))
     = report.
Proof.
  intros a.
  assert (Hs : Submitting sales_csv (st a)) by (repeat split; reflexivity).
  assert (Hfl : in_flight_ok a) by reflexivity.
  split; [exact Hs|]. split; [exact Hfl|].
  pose proof (request_is_not_cancelled no_env a sales_csv book_xlsx []
                (mkResponse 200 report) Hs Hfl) as H.
  split; apply H.
Defined.
